(** * easyrest: generic REST/CRUD dispatch for Fiber

    A shallow embedding of [api.go] (package [easyrest]): the resource
    descriptor [Api], the route registration [RegisterAPI] and the eight
    request handlers, followed by the properties of the dispatch and
    authorization contract.

    The functions of an [Api] are arbitrary Go closures.  They are embedded
    as state-passing functions over a collaborator state [S], and every call
    a handler makes is recorded in a trace of [Event]s, so that the order and
    the number of calls can be stated.  Every function field of a Go struct
    can be nil; a call through a nil field panics. *)

From Stdlib Require Import String Ascii List ZArith Bool Lia.
Import ListNotations.
Open Scope string_scope.
Open Scope list_scope.
Open Scope Z_scope.

(** ** strconv.ParseInt, base 10, bitSize 64 (Go standard library) *)
Module strconv.

Inductive NumError := ErrSyntax | ErrRange.

Definition maxUint64 : Z := 2 ^ 64 - 1.

Definition uint64 (n : Z) : Z := n mod 2 ^ 64.

(** [int64(un)] for [0 <= un < 2^64] *)
Definition int64 (un : Z) : Z :=
  if 2 ^ 63 <=? un then un - 2 ^ 64 else un.

(** [-n] on int64 *)
Definition neg64 (n : Z) : Z := int64 (uint64 (- n)).

(** The digit of a byte in base 10: in [ParseUint] a letter is a digit
    [>= 10], refused as [d >= byte(base)], and every other byte
    (the underscore included, as [base0] is false) is refused by the
    [default] case. *)
Definition digit (c : ascii) : option Z :=
  let n := Z.of_nat (nat_of_ascii c) in
  if (48 <=? n) && (n <=? 57) then Some (n - 48) else None.

(** The loop of [ParseUint] over the bytes of [s]; [n] is the accumulator.
    [cutoff] is [maxUint64/10 + 1] and [maxVal] is [1<<64 - 1]. *)
Fixpoint ParseUint_loop (s : string) (n : Z) : Z * option NumError :=
  match s with
  | EmptyString => (n, None)
  | String c rest =>
      match digit c with
      | None => (0, Some ErrSyntax)
      | Some d =>
          if maxUint64 / 10 + 1 <=? n then (maxUint64, Some ErrRange)
          else
            let n := uint64 (n * 10) in
            let n1 := uint64 (n + d) in
            if (n1 <? n) || (maxUint64 <? n1) then (maxUint64, Some ErrRange)
            else ParseUint_loop rest n1
      end
  end.

Definition ParseUint (s : string) : Z * option NumError :=
  match s with
  | EmptyString => (0, Some ErrSyntax)
  | _ => ParseUint_loop s 0
  end.

Definition ParseInt (s : string) : Z * option NumError :=
  match s with
  | EmptyString => (0, Some ErrSyntax)
  | String c0 rest =>
      let '(neg, s1) :=
        if Ascii.eqb c0 "+" then (false, rest)
        else if Ascii.eqb c0 "-" then (true, rest)
        else (false, s) in
      match ParseUint s1 with
      | (_, Some ErrSyntax) => (0, Some ErrSyntax)
      | (un, _) =>
          let cutoff := 2 ^ 63 in
          if negb neg && (cutoff <=? un) then (cutoff - 1, Some ErrRange)
          else if neg && (cutoff <? un) then (- cutoff, Some ErrRange)
          else
            let n := int64 un in
            (if neg then neg64 n else n, None)
      end
  end.

End strconv.

(** ** Decimal notation, to state what [strconv.ParseInt] reads *)

(** The digits a string of decimal digits is made of. *)
Fixpoint digits_of (s : string) : option (list Z) :=
  match s with
  | EmptyString => Some []
  | String c rest =>
      match strconv.digit c, digits_of rest with
      | Some d, Some ds => Some (d :: ds)
      | _, _ => None
      end
  end.

(** The number a list of decimal digits writes, most significant first. *)
Fixpoint decimal_value (ds : list Z) : Z :=
  match ds with
  | [] => 0
  | d :: ds' => d * 10 ^ Z.of_nat (length ds') + decimal_value ds'
  end.

(** ** fiber: the part of the HTTP framework the package uses *)
Module fiber.

Definition StatusBadRequest : Z := 400.
Definition StatusUnauthorized : Z := 401.
Definition StatusNotFound : Z := 404.
Definition StatusInternalServerError : Z := 500.
Definition StatusOK : Z := 200.

(** The request as a handler reads it: route parameters and the raw body. *)
Record Ctx := mkCtx {
  Params : string -> string;
  ContentType : string;
  Body : string
}.

Inductive Method := GET | POST | PUT | DELETE.

(** [utils.StatusMessage] on the codes the package sends. *)
Definition StatusMessage (status : Z) : string :=
  if status =? 400 then "Bad Request"
  else if status =? 401 then "Unauthorized"
  else if status =? 404 then "Not Found"
  else if status =? 500 then "Internal Server Error"
  else "".

End fiber.
Import fiber.

Inductive Action :=
| ActionGetAll
| ActionGetOne
| ActionMutate
| ActionCreate
| ActionDelete.

(** [Action] is a [uint8] numbered by [iota]. *)
Definition Action_value (a : Action) : Z :=
  match a with
  | ActionGetAll => 0
  | ActionGetOne => 1
  | ActionMutate => 2
  | ActionCreate => 3
  | ActionDelete => 4
  end.

(** The function fields of [Api] and [SubEntity]. *)
Inductive Field :=
| FFind | FFindAllPage | FFindAll | FSearch | FMutate | FCreate | FDelete
| FDto | FGet.

Section EasyRest.

(** [T] is the internal entity type and [D] the transport type.  [Any] is
    Go's [any], [Err] the values of the [error] interface and [S] the state
    the supplied functions read and write.  [Page] is [Page[T]], declared
    in another file of the package: it is a parameter here. *)
Variables T D Any Page Err S : Type.

(** [c.BodyParser(&out)] for [out] of type [D]: the decoded value or the
    decoding error. *)
Variable BodyParser : Ctx -> Err + D.

Record SubEntity := mkSubEntity {
  SubPath : string;
  Get : option (T -> S -> list Any * S)
}.

Record Api := mkApi {
  Path : string;
  Find : option (string -> S -> (T * bool) * S);
  FindAllPage : option (Z -> S -> Page * S);
  FindAll : option (S -> list T * S);
  Search : option (D -> S -> list T * S);
  Mutate : option (T -> D -> S -> (T * option Err) * S);
  Create : option (D -> S -> (T * option Err) * S);
  Delete : option (T -> S -> (T * option Err) * S);
  SubEntities : list SubEntity;
  Dto : option (T -> S -> D * S);
  Validator : option (Ctx -> Action -> list T -> S -> bool * S)
}.

(** What [log.Printf] is called with. *)
Inductive LogLine :=
| LogRegistering (path : string)
| LogParsingBody (err : Err)
| LogCreating (item : T) (err : Err)
| LogMutating (item : T) (err : Err)
| LogDeleting (err : Err).

(** A call a handler makes, with its arguments and what it returned. *)
Inductive Event :=
| CallFind (key : string) (item : T) (ok : bool)
| CallFindAllPage (ID : Z) (page : Page)
| CallFindAll (all : list T)
| CallSearch (filter : D) (found : list T)
| CallMutate (item : T) (amended : D) (res : T) (err : option Err)
| CallCreate (amended : D) (res : T) (err : option Err)
| CallDelete (item : T) (res : T) (err : option Err)
| CallGet (item : T) (subAll : list Any)
| CallDto (item : T) (dto : D)
| CallValidator (action : Action) (items : list T) (allowed : bool)
| Printf (line : LogLine).

(** What is handed to [c.JSON]. *)
Inductive JsonArg :=
| JDtos (all : list D)
| JPage (all : Page)
| JDto (d : D)
| JAnys (subAll : list Any).

(** The call on [c] a handler returns with. *)
Inductive Response :=
| SendStatus (status : Z)
| JSON (v : JsonArg)
| SendString (body : string).

(** The status the handler has set when it returns: [c.JSON] and
    [c.SendString] leave the default status 200.  An error of the JSON
    encoder inside [c.JSON] is returned by the handler to fiber, whose error
    handler then answers; that answer is not part of this function. *)
Definition status_of (r : Response) : Z :=
  match r with
  | SendStatus status => status
  | JSON _ | SendString _ => StatusOK
  end.

Inductive ResponseBody :=
| BodyText (s : string)
| BodyJSON (v : JsonArg).

(** The body the handler has set: [c.SendStatus] fills the empty body with
    the status message; for [c.JSON] it is the encoding of the value, when
    the encoder accepts it. *)
Definition body_of (r : Response) : ResponseBody :=
  match r with
  | SendStatus status => BodyText (StatusMessage status)
  | JSON v => BodyJSON v
  | SendString body => BodyText body
  end.

(** *** The handler monad: state, trace and panic *)

Inductive Res (A : Type) :=
| Ok (a : A)
| Panic (nil : Field).
Arguments Ok {A} a.
Arguments Panic {A} nil.

Definition M (A : Type) : Type := S -> Res A * S * list Event.

Definition ret {A} (a : A) : M A := fun s => (Ok a, s, []).

Definition bind {A B} (m : M A) (k : A -> M B) : M B :=
  fun s =>
    match m s with
    | (Ok a, s1, tr1) =>
        match k a s1 with
        | (r, s2, tr2) => (r, s2, tr1 ++ tr2)
        end
    | (Panic f, s1, tr1) => (Panic f, s1, tr1)
    end.

Notation "x <- m ;; k" := (bind m (fun x => k))
  (at level 61, m at next level, right associativity).
Notation "' p <- m ;; k" := (bind m (fun x => let 'p := x in k))
  (at level 61, p pattern, m at next level, right associativity).

(** A call of a supplied function: it runs on the state and is recorded. *)
Definition invoke {A} (f : S -> A * S) (ev : A -> Event) : M A :=
  fun s => let '(a, s1) := f s in (Ok a, s1, [ev a]).

(** A call through a function field: a nil field panics. *)
Definition call {X A} (fld : Field) (f : option X) (k : X -> M A) : M A :=
  match f with
  | Some g => k g
  | None => fun s => (Panic fld, s, [])
  end.

Definition log_Printf (line : LogLine) : M unit :=
  fun s => (Ok tt, s, [Printf line]).

Definition Handler : Type := Ctx -> M Response.

(** [api.Validator != nil && !api.Validator(c, action, item...)] *)
Definition Validator_denies (api : Api) (c : Ctx) (action : Action)
    (item : list T) : M bool :=
  match Validator api with
  | None => ret false
  | Some v =>
      allowed <- invoke (v c action item) (CallValidator action item) ;;
      ret (negb allowed)
  end.

Definition call_Dto (api : Api) (v : T) : M D :=
  call FDto (Dto api) (fun dto => invoke (dto v) (CallDto v)).

(** [for _, v := range vs { all = append(all, api.Dto(v)) }] *)
Fixpoint range_append_Dto (api : Api) (vs : list T) (all : list D)
    : M (list D) :=
  match vs with
  | [] => ret all
  | v :: vs' =>
      d <- call_Dto api v ;;
      range_append_Dto api vs' (all ++ [d])
  end.

(** *** The handlers *)

Definition getAll (api : Api) : Handler := fun c =>
  denied <- Validator_denies api c ActionGetAll [] ;;
  if denied then ret (SendStatus StatusUnauthorized)
  else
    vs <- call FFindAll (FindAll api) (fun f => invoke f CallFindAll) ;;
    all <- range_append_Dto api vs [] ;;
    ret (JSON (JDtos all)).

Definition getAllPage (api : Api) : Handler := fun c =>
  let id := Params c "id" in
  let '(i, err) := strconv.ParseInt id in
  (* [if err != nil { }]: the body is empty *)
  denied <- Validator_denies api c ActionGetAll [] ;;
  if denied then ret (SendStatus StatusUnauthorized)
  else
    all <- call FFindAllPage (FindAllPage api)
             (fun f => invoke (f i) (CallFindAllPage i)) ;;
    ret (JSON (JPage all)).

Definition search (api : Api) : Handler := fun c =>
  denied <- Validator_denies api c ActionGetAll [] ;;
  if denied then ret (SendStatus StatusUnauthorized)
  else
    match BodyParser c with
    | inl err =>
        _ <- log_Printf (LogParsingBody err) ;;
        ret (SendStatus StatusBadRequest)
    | inr filter =>
        vs <- call FSearch (Search api)
                (fun f => invoke (f filter) (CallSearch filter)) ;;
        all <- range_append_Dto api vs [] ;;
        ret (JSON (JDtos all))
    end.

Definition call_Find (api : Api) (id : string) : M (T * bool) :=
  call FFind (Find api)
    (fun f => invoke (f id) (fun r => CallFind id (fst r) (snd r))).

Definition getOne (api : Api) : Handler := fun c =>
  let id := Params c "id" in
  '(item, ok) <- call_Find api id ;;
  if negb ok then
    denied <- Validator_denies api c ActionGetOne [] ;;
    if denied then ret (SendStatus StatusUnauthorized)
    else ret (SendStatus StatusNotFound)
  else
    denied <- Validator_denies api c ActionGetOne [item] ;;
    if denied then ret (SendStatus StatusUnauthorized)
    else
      d <- call_Dto api item ;;
      ret (JSON (JDto d)).

Definition createOne (api : Api) : Handler := fun c =>
  match BodyParser c with
  | inl err =>
      _ <- log_Printf (LogParsingBody err) ;;
      ret (SendStatus StatusBadRequest)
  | inr amended =>
      denied <- Validator_denies api c ActionCreate [] ;;
      if denied then ret (SendStatus StatusUnauthorized)
      else
        '(item, err) <- call FCreate (Create api)
            (fun f => invoke (f amended)
                        (fun r => CallCreate amended (fst r) (snd r))) ;;
        match err with
        | Some e =>
            _ <- log_Printf (LogCreating item e) ;;
            ret (SendStatus StatusInternalServerError)
        | None =>
            d <- call_Dto api item ;;
            ret (JSON (JDto d))
        end
  end.

Definition mutateOne (api : Api) : Handler := fun c =>
  match BodyParser c with
  | inl err =>
      _ <- log_Printf (LogParsingBody err) ;;
      ret (SendStatus StatusBadRequest)
  | inr amended =>
      let id := Params c "id" in
      '(item, ok) <- call_Find api id ;;
      if negb ok then
        denied <- Validator_denies api c ActionMutate [] ;;
        if denied then ret (SendStatus StatusUnauthorized)
        else ret (SendStatus StatusNotFound)
      else
        denied <- Validator_denies api c ActionMutate [item] ;;
        if denied then ret (SendStatus StatusUnauthorized)
        else
          '(item1, err) <- call FMutate (Mutate api)
              (fun f => invoke (f item amended)
                          (fun r => CallMutate item amended (fst r) (snd r))) ;;
          match err with
          | Some e =>
              _ <- log_Printf (LogMutating item1 e) ;;
              ret (SendStatus StatusInternalServerError)
          | None =>
              d <- call_Dto api item1 ;;
              ret (JSON (JDto d))
          end
  end.

Definition deleteOne (api : Api) : Handler := fun c =>
  let id := Params c "id" in
  '(item, ok) <- call_Find api id ;;
  if negb ok then
    denied <- Validator_denies api c ActionDelete [] ;;
    if denied then ret (SendStatus StatusUnauthorized)
    else ret (SendStatus StatusNotFound)
  else
    denied <- Validator_denies api c ActionDelete [item] ;;
    if denied then ret (SendStatus StatusUnauthorized)
    else
      '(item1, err) <- call FDelete (Delete api)
          (fun f => invoke (f item)
                      (fun r => CallDelete item (fst r) (snd r))) ;;
      match err with
      | Some e =>
          _ <- log_Printf (LogDeleting e) ;;
          ret (SendStatus StatusInternalServerError)
      | None => ret (SendString "deleted")
      end.

Definition getSubEntity (api : Api)
    (getter : option (T -> S -> list Any * S)) : Handler := fun c =>
  let id := Params c "id" in
  '(item, ok) <- call_Find api id ;;
  if negb ok then
    denied <- Validator_denies api c ActionGetOne [] ;;
    if denied then ret (SendStatus StatusUnauthorized)
    else ret (SendStatus StatusNotFound)
  else
    denied <- Validator_denies api c ActionGetOne [item] ;;
    if denied then ret (SendStatus StatusUnauthorized)
    else
      subAll <- call FGet getter (fun g => invoke (g item) (CallGet item)) ;;
      ret (JSON (JAnys subAll)).

(** *** Route registration *)

(** A route as the package registers it: the prefix of its group, the
    method, the path given to the group and the handler. *)
Record Route := mkRoute {
  group : string;
  method : Method;
  path : string;
  handler : Handler
}.

(** The routes of a [fiber.Router], in registration order. *)
Definition Router : Type := list Route.

(** [api.Group(prefix)] followed by registrations on the group. *)
Record GroupRouter := mkGroup { prefix : string; stack : Router }.

Definition Group (api : Router) (prefix : string) : GroupRouter :=
  mkGroup prefix api.

Definition Add (m : Method) (g : GroupRouter) (p : string) (h : Handler)
    : GroupRouter :=
  mkGroup (prefix g) (stack g ++ [mkRoute (prefix g) m p h]).

(** [for _, subEntity := range genericApi.SubEntities { generic.Get(...) }] *)
Fixpoint range_SubEntities (genericApi : Api) (ses : list SubEntity)
    (generic : GroupRouter) : GroupRouter :=
  match ses with
  | [] => generic
  | subEntity :: ses' =>
      range_SubEntities genericApi ses'
        (Add GET generic ("/:id/" ++ SubPath subEntity)%string
           (getSubEntity genericApi (Get subEntity)))
  end.

Definition isNil {X} (f : option X) : bool :=
  match f with Some _ => false | None => true end.

(** The router after the registration, and the line logged. *)
Definition RegisterAPI (api : Router) (genericApi : Api)
    : Router * list Event :=
  let generic := Group api ("/" ++ Path genericApi)%string in
  let generic := Add GET generic "/" (getAll genericApi) in
  let generic := Add GET generic "/page/:id" (getAllPage genericApi) in
  let generic :=
    if negb (isNil (Mutate genericApi))
    then Add POST generic "/" (createOne genericApi) else generic in
  let generic :=
    if negb (isNil (Search genericApi))
    then Add POST generic "/filter" (search genericApi) else generic in
  let generic :=
    range_SubEntities genericApi (SubEntities genericApi) generic in
  let generic := Add GET generic "/:id" (getOne genericApi) in
  let generic :=
    if negb (isNil (Mutate genericApi))
    then Add PUT generic "/:id" (mutateOne genericApi) else generic in
  let generic :=
    if negb (isNil (Delete genericApi))
    then Add DELETE generic "/:id" (deleteOne genericApi) else generic in
  (stack generic, [Printf (LogRegistering (Path genericApi))]).

(** *** The operations that address one item by key *)

Inductive ItemOp :=
| OpGetOne
| OpMutateOne
| OpDeleteOne
| OpGetSubEntity (getter : option (T -> S -> list Any * S)).

Definition item_handler (api : Api) (op : ItemOp) : Handler :=
  match op with
  | OpGetOne => getOne api
  | OpMutateOne => mutateOne api
  | OpDeleteOne => deleteOne api
  | OpGetSubEntity getter => getSubEntity api getter
  end.

(** The action tag each of them hands to the validator. *)
Definition item_action (op : ItemOp) : Action :=
  match op with
  | OpGetOne => ActionGetOne
  | OpMutateOne => ActionMutate
  | OpDeleteOne => ActionDelete
  | OpGetSubEntity _ => ActionGetOne
  end.

(** The effect of an operation is the call of its delegated function on
    the found item; through a nil field the call is the panic. *)
Definition effect_reached (api : Api) (op : ItemOp) (c : Ctx) (item : T)
    (res : Res Response) (tr : list Event) : Prop :=
  match op with
  | OpGetOne =>
      match Dto api with
      | Some _ => exists d, In (CallDto item d) tr
      | None => res = Panic FDto
      end
  | OpMutateOne =>
      exists amended, BodyParser c = inr amended /\
      match Mutate api with
      | Some _ => exists r e, In (CallMutate item amended r e) tr
      | None => res = Panic FMutate
      end
  | OpDeleteOne =>
      match Delete api with
      | Some _ => exists r e, In (CallDelete item r e) tr
      | None => res = Panic FDelete
      end
  | OpGetSubEntity getter =>
      match getter with
      | Some _ => exists subAll, In (CallGet item subAll) tr
      | None => res = Panic FGet
      end
  end.

(** The run of an operation from the state [s2] its checkpoint left begins
    with the effect: the first thing recorded in [rest] is the call of the
    delegated function on the found item, with what the function returns
    in [s2]; through a nil field nothing is recorded and the run is the
    panic. *)
Definition effect_begins (api : Api) (op : ItemOp)
    (c : Ctx) (item : T) (s2 : S)
    (res : Res Response) (s' : S)
    (rest : list Event) : Prop :=
  match op with
  | OpGetOne =>
      match Dto api with
      | Some dto =>
          exists rest', rest = CallDto item (fst (dto item s2)) :: rest'
      | None => res = Panic FDto /\ s' = s2 /\ rest = []
      end
  | OpMutateOne =>
      exists amended, BodyParser c = inr amended /\
      match Mutate api with
      | Some mutate =>
          exists rest',
            rest = CallMutate item amended
                     (fst (fst (mutate item amended s2)))
                     (snd (fst (mutate item amended s2))) :: rest'
      | None => res = Panic FMutate /\ s' = s2 /\ rest = []
      end
  | OpDeleteOne =>
      match Delete api with
      | Some delete =>
          exists rest',
            rest = CallDelete item (fst (fst (delete item s2)))
                     (snd (fst (delete item s2))) :: rest'
      | None => res = Panic FDelete /\ s' = s2 /\ rest = []
      end
  | OpGetSubEntity getter =>
      match getter with
      | Some g => exists rest', rest = CallGet item (fst (g item s2)) :: rest'
      | None => res = Panic FGet /\ s' = s2 /\ rest = []
      end
  end.
(** *** The operations that delegate to a function returning an error *)

Inductive WriteOp := OpCreate | OpMutate | OpDelete.

Definition write_handler (api : Api) (op : WriteOp) : Handler :=
  match op with
  | OpCreate => createOne api
  | OpMutate => mutateOne api
  | OpDelete => deleteOne api
  end.

(** The delegated function of [op] was called and returned the error [e]. *)
Definition collaborator_failed (op : WriteOp) (e : Err) (tr : list Event)
    : Prop :=
  match op with
  | OpCreate => exists amended r, In (CallCreate amended r (Some e)) tr
  | OpMutate => exists item amended r, In (CallMutate item amended r (Some e)) tr
  | OpDelete => exists item r, In (CallDelete item r (Some e)) tr
  end.

(** The method and path of the routes of a router. *)
Definition route_keys (rs : Router) : list (Method * string) :=
  map (fun r => (method r, path r)) rs.

(** *** The eight handlers as one family *)

Inductive Endpoint :=
| EGetAll
| EGetAllPage
| ESearch
| EGetOne
| ECreateOne
| EMutateOne
| EDeleteOne
| EGetSubEntity (getter : option (T -> S -> list Any * S)).

Definition endpoint_handler (api : Api) (e : Endpoint) : Handler :=
  match e with
  | EGetAll => getAll api
  | EGetAllPage => getAllPage api
  | ESearch => search api
  | EGetOne => getOne api
  | ECreateOne => createOne api
  | EMutateOne => mutateOne api
  | EDeleteOne => deleteOne api
  | EGetSubEntity getter => getSubEntity api getter
  end.

(** The action tag written in the validator calls of each handler. *)
Definition endpoint_action (e : Endpoint) : Action :=
  match e with
  | EGetAll | EGetAllPage | ESearch => ActionGetAll
  | EGetOne | EGetSubEntity _ => ActionGetOne
  | ECreateOne => ActionCreate
  | EMutateOne => ActionMutate
  | EDeleteOne => ActionDelete
  end.

(** The handlers that look no item up. *)
Definition aggregate (e : Endpoint) : bool :=
  match e with
  | EGetAll | EGetAllPage | ESearch | ECreateOne => true
  | _ => false
  end.

(** The statuses written in the [return] statements of each handler. *)
Definition endpoint_statuses (e : Endpoint) : list Z :=
  match e with
  | EGetAll | EGetAllPage => [StatusOK; StatusUnauthorized]
  | ESearch => [StatusOK; StatusBadRequest; StatusUnauthorized]
  | EGetOne | EGetSubEntity _ =>
      [StatusOK; StatusUnauthorized; StatusNotFound]
  | ECreateOne =>
      [StatusOK; StatusBadRequest; StatusUnauthorized;
       StatusInternalServerError]
  | EMutateOne =>
      [StatusOK; StatusBadRequest; StatusUnauthorized; StatusNotFound;
       StatusInternalServerError]
  | EDeleteOne =>
      [StatusOK; StatusUnauthorized; StatusNotFound;
       StatusInternalServerError]
  end.

Definition is_CallValidator (ev : Event) : bool :=
  match ev with CallValidator _ _ _ => true | _ => false end.

Definition is_CallDto (ev : Event) : bool :=
  match ev with CallDto _ _ => true | _ => false end.

Definition is_Printf (ev : Event) : bool :=
  match ev with Printf _ => true | _ => false end.

(** The handler whose code holds the call recorded by [ev], for the calls
    written in one handler only. *)
Definition caller_of (ev : Event) (e : Endpoint) : Prop :=
  match ev with
  | CallFindAll _ => e = EGetAll
  | CallFindAllPage _ _ => e = EGetAllPage
  | CallSearch _ _ => e = ESearch
  | CallCreate _ _ _ => e = ECreateOne
  | CallMutate _ _ _ _ => e = EMutateOne
  | CallDelete _ _ _ => e = EDeleteOne
  | CallGet _ _ => exists getter, e = EGetSubEntity getter
  | CallFind _ _ _ => aggregate e = false
  | CallDto _ _ =>
      e = EGetAll \/ e = ESearch \/ e = EGetOne \/ e = ECreateOne \/
      e = EMutateOne
  | CallValidator _ _ _ | Printf _ => True
  end.

End EasyRest.

Arguments mkSubEntity {T Any S} SubPath Get.
Arguments SubPath {T Any S} _.
Arguments Get {T Any S} _.
Arguments mkApi {T D Any Page Err S} _ _ _ _ _ _ _ _ _ _ _.
Arguments Path {T D Any Page Err S} _.
Arguments Find {T D Any Page Err S} _.
Arguments FindAllPage {T D Any Page Err S} _.
Arguments FindAll {T D Any Page Err S} _.
Arguments Search {T D Any Page Err S} _.
Arguments Mutate {T D Any Page Err S} _.
Arguments Create {T D Any Page Err S} _.
Arguments Delete {T D Any Page Err S} _.
Arguments SubEntities {T D Any Page Err S} _.
Arguments Dto {T D Any Page Err S} _.
Arguments Validator {T D Any Page Err S} _.
Arguments LogRegistering {T Err} path.
Arguments LogParsingBody {T Err} err.
Arguments LogCreating {T Err} item err.
Arguments LogMutating {T Err} item err.
Arguments LogDeleting {T Err} err.
Arguments CallFind {T D Any Page Err} key item ok.
Arguments CallFindAllPage {T D Any Page Err} ID page.
Arguments CallFindAll {T D Any Page Err} all.
Arguments CallSearch {T D Any Page Err} filter found.
Arguments CallMutate {T D Any Page Err} item amended res err.
Arguments CallCreate {T D Any Page Err} amended res err.
Arguments CallDelete {T D Any Page Err} item res err.
Arguments CallGet {T D Any Page Err} item subAll.
Arguments CallDto {T D Any Page Err} item dto.
Arguments CallValidator {T D Any Page Err} action items allowed.
Arguments Printf {T D Any Page Err} line.
Arguments JDtos {D Any Page} all.
Arguments JPage {D Any Page} all.
Arguments JDto {D Any Page} d.
Arguments JAnys {D Any Page} subAll.
Arguments SendStatus {D Any Page} status.
Arguments JSON {D Any Page} v.
Arguments SendString {D Any Page} body.
Arguments status_of {D Any Page} r.
Arguments BodyText {D Any Page} s.
Arguments BodyJSON {D Any Page} v.
Arguments body_of {D Any Page} r.
Arguments Ok {A} a.
Arguments Panic {A} nil.
Arguments Validator_denies {T D Any Page Err S} api c action item _.
Arguments call_Dto {T D Any Page Err S} api v _.
Arguments call_Find {T D Any Page Err S} api id _.
Arguments range_append_Dto {T D Any Page Err S} api vs all _.
Arguments getAll {T D Any Page Err S} api c _.
Arguments getAllPage {T D Any Page Err S} api c _.
Arguments search {T D Any Page Err S} BodyParser api c _.
Arguments getOne {T D Any Page Err S} api c _.
Arguments createOne {T D Any Page Err S} BodyParser api c _.
Arguments mutateOne {T D Any Page Err S} BodyParser api c _.
Arguments deleteOne {T D Any Page Err S} api c _.
Arguments getSubEntity {T D Any Page Err S} api getter c _.
Arguments mkRoute {T D Any Page Err S} group method path handler.
Arguments group {T D Any Page Err S} _.
Arguments method {T D Any Page Err S} _.
Arguments path {T D Any Page Err S} _.
Arguments handler {T D Any Page Err S} _.
Arguments RegisterAPI {T D Any Page Err S} BodyParser api genericApi.
Arguments route_keys {T D Any Page Err S} rs.
Arguments OpGetOne {T Any S}.
Arguments OpMutateOne {T Any S}.
Arguments OpDeleteOne {T Any S}.
Arguments OpGetSubEntity {T Any S} getter.
Arguments item_handler {T D Any Page Err S} BodyParser api op c _.
Arguments item_action {T Any S} op.
Arguments effect_reached {T D Any Page Err S} BodyParser api op c item res tr.
Arguments effect_begins {T D Any Page Err S} BodyParser api op c item s2 res
  s' rest.
Arguments write_handler {T D Any Page Err S} BodyParser api op c _.
Arguments collaborator_failed {T D Any Page Err} op e tr.

Arguments EGetAll {T Any S}.
Arguments EGetAllPage {T Any S}.
Arguments ESearch {T Any S}.
Arguments EGetOne {T Any S}.
Arguments ECreateOne {T Any S}.
Arguments EMutateOne {T Any S}.
Arguments EDeleteOne {T Any S}.
Arguments EGetSubEntity {T Any S} getter.
Arguments endpoint_handler {T D Any Page Err S} BodyParser api e c _.
Arguments endpoint_action {T Any S} e.
Arguments aggregate {T Any S} e.
Arguments endpoint_statuses {T Any S} e.
Arguments is_CallValidator {T D Any Page Err} ev.
Arguments is_CallDto {T D Any Page Err} ev.
Arguments is_Printf {T D Any Page Err} ev.
Arguments caller_of {T D Any Page Err S} ev e.

(** ** A small inventory served through the package *)
Module Demo.

Record Item := mkItem { Key : string; Name : string; Cost : Z }.

(** The transport shape shows the name only. *)
Definition ItemDto : Type := string.

Definition Store : Type := list Item.

(** A page of the store holds the stored items themselves; the demo store
    fits on page 0. *)
Definition ItemPage : Type := list Item.

Definition DemoApi : Type := Api Item ItemDto string ItemPage string Store.

Definition zero : Item := mkItem "" "" 0.

Definition store : Store :=
  [mkItem "7" "anvil" 120; mkItem "42" "rope" 15].

Definition parse (c : Ctx) : string + ItemDto :=
  if String.eqb (Body c) "" then inl "unexpected end of JSON input"
  else inr (Body c).

Definition lookup (key : string) (s : Store) : (Item * bool) * Store :=
  match List.find (fun it => String.eqb (Key it) key) s with
  | Some it => ((it, true), s)
  | None => ((zero, false), s)
  end.

Definition page (ID : Z) (s : Store) : ItemPage * Store :=
  (if ID =? 0 then firstn 10 s else [], s).

Definition everything (s : Store) : list Item * Store := (s, s).

Definition by_name (filter : ItemDto) (s : Store) : list Item * Store :=
  (List.filter (fun it => String.eqb (Name it) filter) s, s).

Definition rename (item : Item) (amended : ItemDto) (s : Store)
    : (Item * option string) * Store :=
  if String.eqb amended "taken" then ((item, Some "name is taken"), s)
  else
    let item1 := mkItem (Key item) amended (Cost item) in
    ((item1, None),
     map (fun it => if String.eqb (Key it) (Key item) then item1 else it) s).

Definition insert (amended : ItemDto) (s : Store)
    : (Item * option string) * Store :=
  if String.eqb amended "taken" then ((zero, Some "name is taken"), s)
  else
    let item := mkItem amended amended 0 in
    ((item, None), s ++ [item]).

Definition remove (item : Item) (s : Store)
    : (Item * option string) * Store :=
  if String.eqb (Name item) "anvil" then ((item, Some "too heavy"), s)
  else
    ((item, None),
     List.filter (fun it => negb (String.eqb (Key it) (Key item))) s).

Definition name_of (item : Item) (s : Store) : ItemDto * Store :=
  (Name item, s).

Definition letters (item : Item) (s : Store) : list string * Store :=
  ([Name item; Key item], s).

Definition allow_all (c : Ctx) (a : Action) (items : list Item) (s : Store)
    : bool * Store := (true, s).

Definition deny_all (c : Ctx) (a : Action) (items : list Item) (s : Store)
    : bool * Store := (false, s).

(** The descriptor, with the validator and the create function to choose. *)
Definition inventory
    (validator : option (Ctx -> Action -> list Item -> Store -> bool * Store))
    (create : option (ItemDto -> Store -> (Item * option string) * Store))
    : DemoApi :=
  mkApi "items" (Some lookup) (Some page) (Some everything) (Some by_name)
    (Some rename) create (Some remove)
    [mkSubEntity "letters" (Some letters)]
    (Some name_of) validator.

Definition DemoEvent : Type := Event Item ItemDto string ItemPage string.

Definition DemoResponse : Type := Response ItemDto string ItemPage.

Definition DemoRun : Type := Res DemoResponse * Store * list DemoEvent.

Definition anvil : Item := mkItem "7" "anvil" 120.

Definition rope : Item := mkItem "42" "rope" 15.

(** A request for the item [id] with the body [body]. *)
Definition request (id body : string) : Ctx :=
  mkCtx (fun name => if String.eqb name "id" then id else "")
    "application/json" body.

End Demo.

(** ** Properties of the dispatch and authorization contract *)

(** The scrutinee a run is stuck on: the innermost one. *)
Ltac inner_scrutinee t :=
  match t with
  | context [match ?x with _ => _ end] => inner_scrutinee x
  | _ => t
  end.

Ltac case_run :=
  match goal with
  | H : context [match ?x with _ => _ end] |- _ =>
      let y := inner_scrutinee x in destruct y eqn:?
  | |- context [match ?x with _ => _ end] =>
      let y := inner_scrutinee x in destruct y eqn:?
  end.

(** [negb b] is decided by [b]. *)
Ltac case_negb :=
  match goal with
  | H : context [negb ?b] |- _ => is_var b; destruct b
  | |- context [negb ?b] => is_var b; destruct b
  end.

Ltac unfold_run :=
  unfold getAll, getAllPage, search, getOne, createOne, mutateOne, deleteOne,
    getSubEntity, call_Find, call_Dto, call, Validator_denies, log_Printf,
    invoke, bind, ret in *.

Ltac pair_eq :=
  repeat match goal with
  | H : (_, _) = (_, _) |- _ => inversion H; clear H; subst
  end.

(** Every path of a handler without a loop, with its trace computed. *)
Ltac all_runs :=
  unfold_run;
  repeat (first [case_negb | case_run]; simpl in *; try discriminate; pair_eq).

Ltac in_trace :=
  repeat match goal with
  | H : In _ _ |- _ => simpl in H
  | H : _ \/ _ |- _ => destruct H
  | H : False |- _ => destruct H
  | H : @eq (Event _ _ _ _ _) _ _ |- _ => inversion H; clear H; subst
  end;
  simpl in *; try discriminate.




Section Properties.

Context {T D Any Page Err S : Type}.
Variable BodyParser : Ctx -> Err + D.

Abbreviation Api := (Api T D Any Page Err S).
Abbreviation Event := (Event T D Any Page Err).
Abbreviation Response := (Response D Any Page).
Abbreviation ItemOp := (ItemOp T Any S).

(** Every run of get-one, update, delete or sub-entity list that records a
    lookup without a find is the lookup followed by at most the call of the
    validator with no item, and ends with 401 or 404: these handlers look an
    item up in no other way. *)
Lemma lookup_failed_run :
  forall (api : Api) (op : ItemOp) (c : Ctx) (s s' : S)
         (res : Res Response) (tr : list Event) (key : string) (item : T),
    item_handler BodyParser api op c s = (res, s', tr) ->
    In (CallFind key item false) tr ->
    exists f s1,
      Find api = Some f /\
      key = Params c "id" /\
      f key s = ((item, false), s1) /\
      match Validator api with
      | None =>
          s' = s1 /\
          tr = [CallFind key item false] /\
          res = Ok (SendStatus StatusNotFound)
      | Some v =>
          exists allowed,
            v c (item_action op) [] s1 = (allowed, s') /\
            tr = [CallFind key item false;
                  CallValidator (item_action op) [] allowed] /\
            res = Ok (SendStatus (if allowed then StatusNotFound
                                  else StatusUnauthorized))
      end.
Proof.
  intros api op c s s' res tr key item Hrun Hin.
  destruct op; simpl in Hrun; all_runs; in_trace.
  all: try (do 2 eexists; repeat split; eauto; fail).
  all: do 2 eexists; repeat split; eauto; eexists; repeat split; eauto.
Qed.

(** Every run of the same handlers that records a lookup with a find goes
    on with the validator on the found item, and then stops with 401 or
    reaches the delegated function. *)
Lemma lookup_succeeded_run :
  forall (api : Api) (op : ItemOp) (c : Ctx) (s s' : S)
         (res : Res Response) (tr : list Event) (key : string) (item : T),
    item_handler BodyParser api op c s = (res, s', tr) ->
    In (CallFind key item true) tr ->
    exists f s1,
      Find api = Some f /\
      key = Params c "id" /\
      f key s = ((item, true), s1) /\
      match Validator api with
      | None =>
          exists rest,
            tr = CallFind key item true :: rest /\
            effect_reached BodyParser api op c item res rest
      | Some v =>
          exists allowed s2 rest,
            v c (item_action op) [item] s1 = (allowed, s2) /\
            tr = CallFind key item true
                 :: CallValidator (item_action op) [item] allowed :: rest /\
            if allowed then effect_reached BodyParser api op c item res rest
            else s' = s2 /\ rest = [] /\
                 res = Ok (SendStatus StatusUnauthorized)
      end.
Proof.
  intros api op c s s' res tr key item Hrun Hin.
  destruct op; simpl in Hrun; all_runs; in_trace.
  all: do 2 eexists; repeat split; eauto.
  all: repeat eexists; eauto; unfold effect_reached.
  all: repeat match goal with
       | H : ?x = _ |- context [match ?x with _ => _ end] => rewrite H
       end.
  all: simpl; eauto 8.
Qed.

(** The loop over the sub-entities appends one GET route per sub-entity, in
    declaration order. *)
Lemma range_SubEntities_stack :
  forall (api : Api) (ses : list (SubEntity T Any S))
         (g : GroupRouter T D Any Page Err S),
    range_SubEntities T D Any Page Err S api ses g =
    mkGroup T D Any Page Err S (prefix _ _ _ _ _ _ g)
      (stack _ _ _ _ _ _ g ++
       map (fun se => mkRoute (prefix _ _ _ _ _ _ g) GET
                        ("/:id/" ++ SubPath se)%string
                        (getSubEntity api (Get se))) ses).
Proof.
  intros api ses; induction ses as [|se ses IH]; intros g; simpl.
  - rewrite app_nil_r; destruct g; reflexivity.
  - rewrite IH; unfold Add; simpl.
    rewrite <- app_assoc; reflexivity.
Qed.

Lemma sub_route_key :
  forall (api : Api) (g : string) (ses : list (SubEntity T Any S))
         (m : Method) (p : string),
    In (m, p)
       (route_keys
          (map (fun se => mkRoute g GET ("/:id/" ++ SubPath se)%string
                            (getSubEntity api (Get se))) ses)) ->
    m = GET /\ exists se, In se ses /\ p = ("/:id/" ++ SubPath se)%string.
Proof.
  intros api g ses m p H; unfold route_keys in H.
  rewrite map_map in H; apply in_map_iff in H.
  destruct H as [se [E Hin]]; simpl in E; inversion E; subst; eauto.
Qed.


(** C4, as the code has it.  On a body that does not decode, the create and
    the update handler answer 400 and call nothing: the validator is called
    zero times.  The search handler calls the validator first, with
    [ActionGetAll] and no item: it answers 401 when the validator denies,
    and 400 when the validator grants or there is none. *)
Theorem malformed_body :
  forall (api : Api) (c : Ctx) (s : S) (err : Err),
    BodyParser c = inl err ->
    createOne BodyParser api c s =
      (Ok (SendStatus StatusBadRequest), s, [Printf (LogParsingBody err)]) /\
    mutateOne BodyParser api c s =
      (Ok (SendStatus StatusBadRequest), s, [Printf (LogParsingBody err)]) /\
    match Validator api with
    | None =>
        search BodyParser api c s =
          (Ok (SendStatus StatusBadRequest), s, [Printf (LogParsingBody err)])
    | Some v =>
        let '(allowed, s1) := v c ActionGetAll [] s in
        search BodyParser api c s =
          if allowed
          then (Ok (SendStatus StatusBadRequest), s1,
                [CallValidator ActionGetAll [] true;
                 Printf (LogParsingBody err)])
          else (Ok (SendStatus StatusUnauthorized), s1,
                [CallValidator ActionGetAll [] false])
    end.
Proof.
  intros api c s err Hbody.
  unfold createOne, mutateOne, search, Validator_denies, log_Printf,
    invoke, bind, ret.
  rewrite Hbody; simpl.
  split; [reflexivity|]; split; [reflexivity|].
  destruct (Validator api) as [v|]; [|reflexivity].
  destruct (v c ActionGetAll [] s) as [[|] s1]; reflexivity.
Qed.

(** C6, as the code has it.  With [Mutate] set and [Create] nil the create
    route is registered with [createOne], and a create request whose body
    decodes comes to the authorization check first: when the validator
    denies, the answer is 401 and [Create] is not called; when it grants, or
    when there is none, the handler calls through the nil [Create] and
    panics. *)
Theorem create_through_nil :
  forall (api : Router T D Any Page Err S) (genericApi : Api)
         (c : Ctx) (s : S) (amended : D),
    Mutate genericApi <> None ->
    Create genericApi = None ->
    BodyParser c = inr amended ->
    In (mkRoute ("/" ++ Path genericApi)%string POST "/"
          (createOne BodyParser genericApi))
       (fst (RegisterAPI BodyParser api genericApi)) /\
    match Validator genericApi with
    | None => createOne BodyParser genericApi c s = (Panic FCreate, s, [])
    | Some v =>
        let '(allowed, s1) := v c ActionCreate [] s in
        createOne BodyParser genericApi c s =
          if allowed
          then (Panic FCreate, s1, [CallValidator ActionCreate [] true])
          else (Ok (SendStatus StatusUnauthorized), s1,
                [CallValidator ActionCreate [] false])
    end.
Proof.
  intros api genericApi c s amended Hmutate Hcreate Hbody; split.
  - unfold RegisterAPI, Group.
    destruct (Mutate genericApi) as [mutate|]; [|congruence].
    simpl.
    destruct (Search genericApi); destruct (Delete genericApi); simpl;
      rewrite range_SubEntities_stack; simpl;
      repeat (rewrite ?in_app_iff; simpl); tauto.
  - unfold createOne, Validator_denies, call, invoke, bind, ret.
    rewrite Hbody, Hcreate.
    destruct (Validator genericApi) as [v|]; [|reflexivity].
    destruct (v c ActionCreate [] s) as [[|] s1]; reflexivity.
Qed.

(** What [strconv.ParseInt] returns next to an error: 0 next to a syntax
    error, the nearest bound of int64 next to a range error. *)
Lemma ParseInt_error :
  forall (id : string) (i : Z) (e : strconv.NumError),
    strconv.ParseInt id = (i, Some e) ->
    (e = strconv.ErrSyntax /\ i = 0) \/
    (e = strconv.ErrRange /\ (i = 2 ^ 63 - 1 \/ i = - 2 ^ 63)).
Proof.
  intros id i e H; unfold strconv.ParseInt in H.
  destruct id as [|c0 rest]; [inversion H; auto|].
  destruct (if Ascii.eqb c0 "+" then (false, rest)
            else if Ascii.eqb c0 "-" then (true, rest)
            else (false, String c0 rest)) as [neg s1].
  destruct (strconv.ParseUint s1) as [un [[|]|]];
    try (inversion H; auto; fail).
  all: destruct (negb neg && (2 ^ 63 <=? un));
    [inversion H; auto|];
    destruct (neg && (2 ^ 63 <? un)); inversion H; auto.
Qed.

(** C7, as the code has it.  When the page token does not parse, the handler
    never answers 400: it drops the error and goes on with the value
    [ParseInt] returned next to it, which is 0 for a syntax error and the
    nearest bound of int64 for a number out of range.  When the validator
    denies, the answer is 401; when it grants, or when there is none,
    [FindAllPage] is called with that value and its page is the body of a
    200 response. *)
Theorem page_token_error_dropped :
  forall (api : Api) (c : Ctx) (s : S) (i : Z) (e : strconv.NumError)
         (f : Z -> S -> Page * S),
    strconv.ParseInt (Params c "id") = (i, Some e) ->
    FindAllPage api = Some f ->
    ((e = strconv.ErrSyntax /\ i = 0) \/
     (e = strconv.ErrRange /\ (i = 2 ^ 63 - 1 \/ i = - 2 ^ 63))) /\
    match Validator api with
    | None =>
        let '(page, s1) := f i s in
        getAllPage api c s =
          (Ok (JSON (JPage page)), s1, [CallFindAllPage i page])
    | Some v =>
        let '(allowed, s1) := v c ActionGetAll [] s in
        if allowed
        then
          let '(page, s2) := f i s1 in
          getAllPage api c s =
            (Ok (JSON (JPage page)), s2,
             [CallValidator ActionGetAll [] true; CallFindAllPage i page])
        else
          getAllPage api c s =
            (Ok (SendStatus StatusUnauthorized), s1,
             [CallValidator ActionGetAll [] false])
    end.
Proof.
  intros api c s i e f Hparse Hpage; split.
  - exact (ParseInt_error _ _ _ Hparse).
  - unfold getAllPage, Validator_denies, call, invoke, bind, ret.
    rewrite Hparse, Hpage.
    destruct (Validator api) as [v|].
    + destruct (v c ActionGetAll [] s) as [[|] s1]; simpl; [|reflexivity].
      destruct (f i s1) as [page s2]; reflexivity.
    + simpl; destruct (f i s) as [page s1]; reflexivity.
Qed.



(** Every run of the create, the update or the delete handler that records
    an error of the delegated function ends with 500 and the fixed status
    text as its body. *)
Lemma collaborator_failure_run :
  forall (api : Api) (op : WriteOp) (c : Ctx) (s s' : S)
         (res : Res Response) (tr : list Event) (e : Err),
    write_handler BodyParser api op c s = (res, s', tr) ->
    collaborator_failed op e tr ->
    res = Ok (SendStatus StatusInternalServerError) /\
    exists r,
      res = Ok r /\ status_of r = 500 /\
      body_of r = BodyText "Internal Server Error".
Proof.
  intros api op c s s' res tr e Hrun Hfail.
  destruct op; simpl in Hrun, Hfail.
  - destruct Hfail as [amended [r Hin]]; all_runs; in_trace.
    all: split; [reflexivity | eexists; repeat split].
  - destruct Hfail as [item [amended [r Hin]]]; all_runs; in_trace.
    all: split; [reflexivity | eexists; repeat split].
  - destruct Hfail as [item [r Hin]]; all_runs; in_trace.
    all: split; [reflexivity | eexists; repeat split].
Qed.

(** The conversion loop calls [Dto] on each entity in order and appends what
    it returns. *)
Lemma range_append_Dto_Ok :
  forall (api : Api) (vs : list T) (all : list D) (s s' : S)
         (ds : list D) (tr : list Event),
    range_append_Dto api vs all s = (Ok ds, s', tr) ->
    exists ds',
      ds = all ++ ds' /\
      length ds' = length vs /\
      tr = map (fun p => CallDto (fst p) (snd p)) (combine vs ds').
Proof.
  intros api vs; induction vs as [|v vs IH]; intros all s s' ds tr H.
  - inversion H; subst; exists []; rewrite app_nil_r; auto.
  - simpl in H; unfold bind, call_Dto, call, invoke in H.
    destruct (Dto api) as [dto|]; [|discriminate].
    destruct (dto v s) as [d s1].
    destruct (range_append_Dto api vs (all ++ [d]) s1) as [[r s2] tr2] eqn:E.
    inversion H; subst; clear H.
    apply IH in E; destruct E as [ds' [E1 [E2 E3]]]; subst.
    exists (d :: ds'); rewrite <- app_assoc; simpl; auto.
Qed.

(** The list-all handler converts: a 200 response holds what [Dto] returned
    for each entity [FindAll] returned, in order. *)
Lemma list_all_converts :
  forall (api : Api) (c : Ctx) (s s' : S) (r : Response) (tr : list Event),
    getAll api c s = (Ok r, s', tr) ->
    status_of r = StatusOK ->
    exists vs ds,
      In (CallFindAll vs) tr /\
      r = JSON (JDtos ds) /\
      length ds = length vs /\
      forall v d, In (v, d) (combine vs ds) -> In (CallDto v d) tr.
Proof.
  intros api c s s' r tr Hrun Hok.
  all_runs; simpl in Hok; try discriminate.
  all: match goal with
       | H : range_append_Dto _ _ _ _ = _ |- _ =>
           apply range_append_Dto_Ok in H; destruct H as [ds' [E1 [E2 E3]]]
       end; subst; simpl.
  all: do 2 eexists; repeat split; eauto.
  all: intros v d Hin; repeat right;
    apply in_or_app; left;
    apply in_map_iff; exists (v, d); auto.
Qed.

(** The get-one handler converts: a 200 response holds what [Dto] returned
    for the item the lookup found. *)
Lemma get_one_converts :
  forall (api : Api) (c : Ctx) (s s' : S) (r : Response) (tr : list Event),
    getOne api c s = (Ok r, s', tr) ->
    status_of r = StatusOK ->
    exists item d,
      In (CallFind (Params c "id") item true) tr /\
      In (CallDto item d) tr /\
      r = JSON (JDto d).
Proof.
  intros api c s s' r tr Hrun Hok.
  all_runs; simpl in Hok; try discriminate.
  all: do 2 eexists; simpl; eauto 8.
Qed.

(** C1. For get-one, update, delete and sub-entity list, on a key the
    lookup does not find (for update, once the body has decoded): the
    handler looks the key up and then calls the validator, if there is one,
    with the action of the operation and no item; when the validator denies
    the response is 401, never 404, and when it grants, or when there is no
    validator, the response is 404. *)
Theorem lookup_failed_checkpoint :
  forall (api : Api) (op : ItemOp) (c : Ctx) (s s1 : S)
         (f : string -> S -> (T * bool) * S) (item : T),
    Find api = Some f ->
    f (Params c "id") s = ((item, false), s1) ->
    (op = OpMutateOne -> exists amended, BodyParser c = inr amended) ->
    item_handler BodyParser api op c s =
      match Validator api with
      | None =>
          (Ok (SendStatus StatusNotFound), s1,
           [CallFind (Params c "id") item false])
      | Some v =>
          let '(allowed, s2) := v c (item_action op) [] s1 in
          (Ok (SendStatus (if allowed then StatusNotFound
                           else StatusUnauthorized)), s2,
           [CallFind (Params c "id") item false;
            CallValidator (item_action op) [] allowed])
      end.
Proof.
  intros api op c s s1 f item Hfind Hf Hbody.
  destruct op; simpl;
    unfold getOne, mutateOne, deleteOne, getSubEntity, call_Find, call,
      Validator_denies, invoke, bind, ret.
  2: destruct (Hbody eq_refl) as [amended Hamended]; rewrite Hamended.
  all: rewrite Hfind, Hf; simpl.
  all: destruct (Validator api) as [v|]; [|reflexivity].
  all: repeat (first [case_negb | case_run]; simpl); reflexivity.
Qed.

(** C2. For the same operations, on a key the lookup finds (for update,
    once the body has decoded): the handler calls the validator, if there
    is one, with the action of the operation and the found item; when it
    denies, the run ends there with 401, whatever the delegated function
    would do; when it grants, or when there is no validator, the next thing
    the handler does is the call of the delegated function on the found
    item. *)
Theorem lookup_succeeded_checkpoint :
  forall (api : Api) (op : ItemOp) (c : Ctx) (s s1 : S)
         (f : string -> S -> (T * bool) * S) (item : T),
    Find api = Some f ->
    f (Params c "id") s = ((item, true), s1) ->
    (op = OpMutateOne -> exists amended, BodyParser c = inr amended) ->
    match Validator api with
    | None =>
        exists res s' rest,
          item_handler BodyParser api op c s =
            (res, s', CallFind (Params c "id") item true :: rest) /\
          effect_begins BodyParser api op c item s1 res s' rest /\
          effect_reached BodyParser api op c item res rest
    | Some v =>
        let '(allowed, s2) := v c (item_action op) [item] s1 in
        if allowed
        then
          exists res s' rest,
            item_handler BodyParser api op c s =
              (res, s',
               CallFind (Params c "id") item true
               :: CallValidator (item_action op) [item] true :: rest) /\
            effect_begins BodyParser api op c item s2 res s' rest /\
            effect_reached BodyParser api op c item res rest
        else
          item_handler BodyParser api op c s =
            (Ok (SendStatus StatusUnauthorized), s2,
             [CallFind (Params c "id") item true;
              CallValidator (item_action op) [item] false])
    end.
Proof.
  intros api op c s s1 f item Hfind Hf Hbody.
  destruct op; simpl;
    unfold getOne, mutateOne, deleteOne, getSubEntity, call_Find, call_Dto,
      call, Validator_denies, log_Printf, invoke, bind, ret, effect_reached,
      effect_begins.
  2: destruct (Hbody eq_refl) as [amended Hamended]; rewrite Hamended.
  all: rewrite Hfind, Hf; simpl.
  all: destruct (Validator api) as [v|].
  all: repeat (first [case_negb | case_run]; simpl).
  all: try reflexivity.
  all: do 3 eexists; split; [reflexivity|]; simpl; split; eauto 8.
  all: exists amended; split; [reflexivity|].
  all: match goal with
       | H : ?m _ _ _ = (_, _, _) |- context [fst (fst (?m _ _ _))] =>
           rewrite H
       end; simpl; eauto.
Qed.

(** [api.Validator != nil && !api.Validator(...)] is false when there is no
    validator, and when the validator was called and granted. *)
Lemma Validator_denies_false :
  forall (api : Api) (c : Ctx) (a : Action) (items : list T) (s s1 : S)
         (trv : list Event),
    Validator_denies api c a items s = (Ok false, s1, trv) <->
    (Validator api = None /\ s1 = s /\ trv = []) \/
    (exists v, Validator api = Some v /\ v c a items s = (true, s1) /\
               trv = [CallValidator a items true]).
Proof.
  intros api c a items s s1 trv.
  unfold Validator_denies, invoke, bind, ret.
  destruct (Validator api) as [v|].
  - destruct (v c a items s) as [[|] s2] eqn:E; simpl; split; intros H.
    + inversion H; subst; right; exists v; auto.
    + destruct H as [[H _]|[v' [E1 [E2 E3]]]]; [discriminate|].
      inversion E1; subst v'; rewrite E in E2; inversion E2; subst.
      reflexivity.
    + discriminate H.
    + destruct H as [[H _]|[v' [E1 [E2 E3]]]]; [discriminate|].
      inversion E1; subst v'; rewrite E in E2; discriminate E2.
  - split; intros H.
    + inversion H; subst; auto.
    + destruct H as [[_ [E1 E2]]|[v' [E1 _]]];
        [subst; reflexivity | discriminate].
Qed.

(** C10. When the checkpoint lets the request through and [Create],
    [Mutate] or [Delete] returns an error, the handler logs the error and
    answers with [c.SendStatus(500)], whose body is the fixed status text:
    neither the error nor the item returned next to it is in the
    response. *)
Theorem collaborator_failure :
  (forall (api : Api) (c : Ctx) (s s1 s2 : S) (trv : list Event)
          (amended : D) (create : D -> S -> (T * option Err) * S)
          (item : T) (e : Err),
      BodyParser c = inr amended ->
      Validator_denies api c ActionCreate [] s = (Ok false, s1, trv) ->
      Create api = Some create ->
      create amended s1 = ((item, Some e), s2) ->
      createOne BodyParser api c s =
        (Ok (SendStatus StatusInternalServerError), s2,
         trv ++ [CallCreate amended item (Some e);
                 Printf (LogCreating item e)])) /\
  (forall (api : Api) (c : Ctx) (s s1 s2 s3 : S) (trv : list Event)
          (amended : D) (find : string -> S -> (T * bool) * S)
          (mutate : T -> D -> S -> (T * option Err) * S)
          (item item1 : T) (e : Err),
      BodyParser c = inr amended ->
      Find api = Some find ->
      find (Params c "id") s = ((item, true), s1) ->
      Validator_denies api c ActionMutate [item] s1 = (Ok false, s2, trv) ->
      Mutate api = Some mutate ->
      mutate item amended s2 = ((item1, Some e), s3) ->
      mutateOne BodyParser api c s =
        (Ok (SendStatus StatusInternalServerError), s3,
         CallFind (Params c "id") item true
         :: trv ++ [CallMutate item amended item1 (Some e);
                    Printf (LogMutating item1 e)])) /\
  (forall (api : Api) (c : Ctx) (s s1 s2 s3 : S) (trv : list Event)
          (find : string -> S -> (T * bool) * S)
          (delete : T -> S -> (T * option Err) * S)
          (item item1 : T) (e : Err),
      Find api = Some find ->
      find (Params c "id") s = ((item, true), s1) ->
      Validator_denies api c ActionDelete [item] s1 = (Ok false, s2, trv) ->
      Delete api = Some delete ->
      delete item s2 = ((item1, Some e), s3) ->
      deleteOne api c s =
        (Ok (SendStatus StatusInternalServerError), s3,
         CallFind (Params c "id") item true
         :: trv ++ [CallDelete item item1 (Some e);
                    Printf (LogDeleting e)])) /\
  status_of (SendStatus StatusInternalServerError : Response) = 500 /\
  body_of (SendStatus StatusInternalServerError : Response) =
    BodyText "Internal Server Error".
Proof.
  repeat split.
  - intros api c s s1 s2 trv amended create item e Hbody Hv Hcreate Hrun.
    unfold createOne, call, log_Printf, invoke, bind, ret.
    rewrite Hbody, Hv, Hcreate, Hrun; simpl.
    rewrite ?app_nil_r; reflexivity.
  - intros api c s s1 s2 s3 trv amended find mutate item item1 e
      Hbody Hfind Hf Hv Hmutate Hrun.
    unfold mutateOne, call_Find, call, log_Printf, invoke, bind, ret.
    rewrite Hbody, Hfind, Hf; simpl.
    rewrite Hv, Hmutate, Hrun; simpl.
    rewrite ?app_nil_r; reflexivity.
  - intros api c s s1 s2 s3 trv find delete item item1 e
      Hfind Hf Hv Hdelete Hrun.
    unfold deleteOne, call_Find, call, log_Printf, invoke, bind, ret.
    rewrite Hfind, Hf; simpl.
    rewrite Hv, Hdelete, Hrun; simpl.
    rewrite ?app_nil_r; reflexivity.
Qed.

End Properties.

(** ** The properties on the inventory *)

Import Demo.

(** [strconv.ParseInt] on a few tokens: in range, at the lower bound, with a
    letter, with a sign alone and below the lower bound. *)
Example ParseInt_tokens :
  strconv.ParseInt "42" = (42, None) /\
  strconv.ParseInt "-9223372036854775808" = (- 2 ^ 63, None) /\
  strconv.ParseInt "4x2" = (0, Some strconv.ErrSyntax) /\
  strconv.ParseInt "+" = (0, Some strconv.ErrSyntax) /\
  strconv.ParseInt "-9223372036854775809" = (- 2 ^ 63, Some strconv.ErrRange).
Proof.
  repeat split; vm_compute; reflexivity.
Qed.

(** PUT on the missing item 9 under a validator that denies: 401 after the
    validator was called with no item. *)
Lemma lookup_failed_checkpoint_witness :
  Find (inventory (Some deny_all) None) = Some lookup /\
  lookup (Params (request "9" "cord") "id") store = ((zero, false), store) /\
  (OpMutateOne (T := Item) (Any := string) (S := Store) = OpMutateOne ->
   exists amended, parse (request "9" "cord") = inr amended) /\
  item_handler parse (inventory (Some deny_all) None) OpMutateOne
    (request "9" "cord") store =
    ((Ok (SendStatus StatusUnauthorized), store,
      [CallFind "9" zero false; CallValidator ActionMutate [] false])
     : DemoRun).
Proof.
  assert (Hbody : OpMutateOne (T := Item) (Any := string) (S := Store)
                  = OpMutateOne ->
                  exists amended, parse (request "9" "cord") = inr amended).
  { intros _; exists "cord"; reflexivity. }
  split; [reflexivity|]; split; [reflexivity|]; split; [exact Hbody|].
  exact (lookup_failed_checkpoint parse (inventory (Some deny_all) None)
           OpMutateOne (request "9" "cord") store store lookup zero
           eq_refl eq_refl Hbody).
Defined.

(** DELETE of the stored item 42 under a validator that grants: the lookup,
    the validator on the rope, then [Delete] on the rope. *)
Lemma lookup_succeeded_checkpoint_witness :
  Find (inventory (Some allow_all) None) = Some lookup /\
  lookup (Params (request "42" "") "id") store = ((rope, true), store) /\
  (OpDeleteOne (T := Item) (Any := string) (S := Store) = OpMutateOne ->
   exists amended, parse (request "42" "") = inr amended) /\
  exists (res : Res DemoResponse) (s' : Store) (rest : list DemoEvent),
    item_handler parse (inventory (Some allow_all) None) OpDeleteOne
      (request "42" "") store =
      (res, s',
       CallFind "42" rope true
       :: CallValidator ActionDelete [rope] true :: rest) /\
    effect_begins parse (inventory (Some allow_all) None) OpDeleteOne
      (request "42" "") rope store res s' rest /\
    effect_reached parse (inventory (Some allow_all) None) OpDeleteOne
      (request "42" "") rope res rest.
Proof.
  assert (Hbody : OpDeleteOne (T := Item) (Any := string) (S := Store)
                  = OpMutateOne ->
                  exists amended, parse (request "42" "") = inr amended).
  { intros H; discriminate H. }
  split; [reflexivity|]; split; [reflexivity|]; split; [exact Hbody|].
  exact (lookup_succeeded_checkpoint parse
           (inventory (Some allow_all) None) OpDeleteOne (request "42" "")
           store store lookup rope eq_refl eq_refl Hbody).
Defined.

(** C4, counterexample.  A search request with an empty body under a
    validator that denies: the validator is called once, before the body is
    decoded, and the answer is 401, not 400. *)
Lemma search_validates_before_parsing :
  parse (request "" "") = inl "unexpected end of JSON input" /\
  search parse (inventory (Some deny_all) None) (request "" "") store =
    ((Ok (SendStatus StatusUnauthorized), store,
      [CallValidator ActionGetAll [] false]) : DemoRun) /\
  StatusUnauthorized <> StatusBadRequest.
Proof.
  split; [reflexivity|]; split; [reflexivity|]; discriminate.
Qed.

(** The three handlers on a request with an empty body, under a validator
    that grants. *)
Lemma malformed_body_witness :
  parse (request "42" "") = inl "unexpected end of JSON input" /\
  createOne parse (inventory (Some allow_all) (Some insert))
    (request "42" "") store =
    ((Ok (SendStatus StatusBadRequest), store,
      [Printf (LogParsingBody "unexpected end of JSON input")]) : DemoRun) /\
  mutateOne parse (inventory (Some allow_all) (Some insert))
    (request "42" "") store =
    ((Ok (SendStatus StatusBadRequest), store,
      [Printf (LogParsingBody "unexpected end of JSON input")]) : DemoRun) /\
  search parse (inventory (Some allow_all) (Some insert))
    (request "42" "") store =
    ((Ok (SendStatus StatusBadRequest), store,
      [CallValidator ActionGetAll [] true;
       Printf (LogParsingBody "unexpected end of JSON input")]) : DemoRun).
Proof.
  split; [reflexivity|].
  exact (malformed_body parse (inventory (Some allow_all) (Some insert))
           (request "42" "") store "unexpected end of JSON input"
           eq_refl).
Defined.

(** C5, at the failing input.  The paged list of the inventory: the body
    handed to [c.JSON] is the page of stored items, cost included, and [Dto]
    is not called. *)
Lemma paged_list_serializes_entities :
  getAllPage (inventory None (Some insert)) (request "0" "") store =
    ((Ok (JSON (JPage [anvil; rope])), store,
      [CallFindAllPage 0 [anvil; rope]]) : DemoRun) /\
  getAll (inventory None (Some insert)) (request "" "") store =
    ((Ok (JSON (JDtos ["anvil"; "rope"])), store,
      [CallFindAll [anvil; rope]; CallDto anvil "anvil";
       CallDto rope "rope"]) : DemoRun).
Proof.
  split; reflexivity.
Qed.

(** C6, counterexample.  [Mutate] set, [Create] nil, a body that decodes,
    and a validator that denies: the answer is 401 and nothing is called
    through the nil [Create]. *)
Lemma create_denied_before_nil_call :
  Mutate (inventory (Some deny_all) None) <> None /\
  Create (inventory (Some deny_all) None) = None /\
  parse (request "" "cord") = inr "cord" /\
  createOne parse (inventory (Some deny_all) None) (request "" "cord") store =
    ((Ok (SendStatus StatusUnauthorized), store,
      [CallValidator ActionCreate [] false]) : DemoRun).
Proof.
  split; [discriminate|]; repeat split.
Qed.

(** The same descriptor under a validator that grants: the create route is
    there and the request panics in the call of [Create]. *)
Lemma create_through_nil_witness :
  Mutate (inventory (Some allow_all) None) <> None /\
  Create (inventory (Some allow_all) None) = None /\
  parse (request "" "cord") = inr "cord" /\
  In (mkRoute "/items" POST "/"
        (createOne parse (inventory (Some allow_all) None)))
     (fst (RegisterAPI parse [] (inventory (Some allow_all) None))) /\
  createOne parse (inventory (Some allow_all) None) (request "" "cord") store =
    ((Panic FCreate, store, [CallValidator ActionCreate [] true]) : DemoRun).
Proof.
  split; [discriminate|]; split; [reflexivity|]; split; [reflexivity|].
  apply (create_through_nil parse [] (inventory (Some allow_all) None)
           (request "" "cord") store "cord");
    [discriminate | reflexivity | reflexivity].
Defined.

(** C7, counterexample.  The page token 9223372036854775808 is one above
    the largest int64: [ParseInt] returns the largest int64 next to its range
    error, and [FindAllPage] is called with it, not with 0. *)
Lemma page_token_out_of_range :
  strconv.ParseInt "9223372036854775808" =
    (9223372036854775807, Some strconv.ErrRange) /\
  getAllPage (inventory None None) (request "9223372036854775808" "") store =
    ((Ok (JSON (JPage [])), store,
      [CallFindAllPage 9223372036854775807 []]) : DemoRun) /\
  9223372036854775807 <> 0.
Proof.
  split; [vm_compute; reflexivity|]; split; [vm_compute; reflexivity|].
  discriminate.
Qed.

(** The page token [abc]: a syntax error, and the first page is served. *)
Lemma page_token_error_dropped_witness :
  strconv.ParseInt (Params (request "abc" "") "id") =
    (0, Some strconv.ErrSyntax) /\
  FindAllPage (inventory None None) = Some page /\
  ((strconv.ErrSyntax = strconv.ErrSyntax /\ 0 = 0) \/
   (strconv.ErrSyntax = strconv.ErrRange /\
    (0 = 2 ^ 63 - 1 \/ 0 = - 2 ^ 63))) /\
  getAllPage (inventory None None) (request "abc" "") store =
    ((Ok (JSON (JPage [anvil; rope])), store,
      [CallFindAllPage 0 [anvil; rope]]) : DemoRun).
Proof.
  split; [reflexivity|]; split; [reflexivity|].
  exact (page_token_error_dropped (inventory None None) (request "abc" "")
           store 0 strconv.ErrSyntax page eq_refl eq_refl).
Defined.



(** The three delegated functions refusing: the name taken on POST and on
    PUT, the anvil on DELETE. *)
Lemma collaborator_failure_witness :
  insert "taken" store = ((zero, Some "name is taken"), store) /\
  rename rope "taken" store = ((rope, Some "name is taken"), store) /\
  remove anvil store = ((anvil, Some "too heavy"), store) /\
  createOne parse (inventory (Some allow_all) (Some insert))
    (request "" "taken") store =
    ((Ok (SendStatus StatusInternalServerError), store,
      [CallValidator ActionCreate [] true]
      ++ [CallCreate "taken" zero (Some "name is taken");
          Printf (LogCreating zero "name is taken")]) : DemoRun) /\
  mutateOne parse (inventory None None) (request "42" "taken") store =
    ((Ok (SendStatus StatusInternalServerError), store,
      CallFind "42" rope true
      :: [] ++ [CallMutate rope "taken" rope (Some "name is taken");
                Printf (LogMutating rope "name is taken")]) : DemoRun) /\
  deleteOne (inventory None None) (request "7" "") store =
    ((Ok (SendStatus StatusInternalServerError), store,
      CallFind "7" anvil true
      :: [] ++ [CallDelete anvil anvil (Some "too heavy");
                Printf (LogDeleting "too heavy")]) : DemoRun).
Proof.
  destruct (collaborator_failure (T := Item) (D := ItemDto)
              (Any := string) (Page := ItemPage) (Err := string)
              (S := Store) parse)
    as [Hcreate [Hmutate [Hdelete _]]].
  do 3 (split; [reflexivity|]).
  split; [|split].
  - apply (Hcreate (inventory (Some allow_all) (Some insert))
             (request "" "taken") store store store
             [CallValidator ActionCreate [] true] "taken" insert zero
             "name is taken"); reflexivity.
  - apply (Hmutate (inventory None None) (request "42" "taken")
             store store store store [] "taken" lookup rename rope rope
             "name is taken"); reflexivity.
  - apply (Hdelete (inventory None None) (request "7" "")
             store store store store [] lookup remove anvil anvil
             "too heavy"); reflexivity.
Defined.

(** ** The conversion loop *)

Section Loop.

Context {T D Any Page Err S : Type}.

Abbreviation Api := (Api T D Any Page Err S).
Abbreviation Event := (Event T D Any Page Err).

(** Every run of the conversion loop: it records calls of [Dto] only; with
    [Dto] set it returns the list extended by one element per entity; with
    [Dto] nil it returns the list as it is on no entity and panics, before
    any call, otherwise. *)
Lemma range_append_Dto_run :
  forall (api : Api) (vs : list T) (all : list D) (s s' : S)
         (r : Res (list D)) (tr : list Event),
    range_append_Dto api vs all s = (r, s', tr) ->
    forallb is_CallDto tr = true /\
    match Dto api with
    | Some _ =>
        exists ds', r = Ok (all ++ ds') /\ length ds' = length vs /\
                    length tr = length vs
    | None =>
        tr = [] /\ s' = s /\
        r = match vs with [] => Ok all | _ :: _ => Panic FDto end
    end.
Proof.
  intros api vs; induction vs as [|v vs IH]; intros all s s' r tr H.
  - inversion H; subst; split; [reflexivity|].
    destruct (Dto api); auto.
    exists []; rewrite app_nil_r; auto.
  - simpl in H; unfold bind, call_Dto, call, invoke in H.
    destruct (Dto api) as [dto|] eqn:Edto.
    + destruct (dto v s) as [d s1].
      destruct (range_append_Dto api vs (all ++ [d]) s1)
        as [[r2 s2] tr2] eqn:E.
      inversion H; subst; clear H.
      apply IH in E.
      destruct E as [Hdto [ds' [E1 [E2 E3]]]]; subst.
      split; [simpl; exact Hdto|].
      exists (d :: ds'); rewrite <- app_assoc; simpl; auto.
    + inversion H; subst; auto.
Qed.

Lemma only_Dto_recorded :
  forall (tr : list Event) (ev : Event),
    forallb is_CallDto tr = true -> In ev tr -> is_CallDto ev = true.
Proof.
  intros tr ev H Hin; rewrite forallb_forall in H; auto.
Qed.

Lemma only_Dto_filter :
  forall (f : Event -> bool) (tr : list Event),
    (forall ev, is_CallDto ev = true -> f ev = false) ->
    forallb is_CallDto tr = true -> filter f tr = [].
Proof.
  intros f tr Hf; induction tr as [|ev tr IH]; simpl; intros H; auto.
  apply andb_true_iff in H; destruct H as [H1 H2].
  rewrite (Hf _ H1); auto.
Qed.

End Loop.

(** Membership in the trace of a run, case by case. *)
Ltac in_run :=
  repeat match goal with
  | H : In _ (_ :: _) |- _ => destruct H as [H|H]
  | H : In _ [] |- _ => destruct H
  | H : _ \/ _ |- _ => destruct H as [H|H]
  | H : False |- _ => destruct H
  | H : In _ (_ ++ _) |- _ => apply in_app_or in H; destruct H as [H|H]
  | H : @eq (Event _ _ _ _ _) _ _ |- _ =>
      inversion H; clear H; subst
  | Hl : forallb is_CallDto ?tr = true, H : In _ ?tr |- _ =>
      apply (only_Dto_recorded _ _ Hl) in H; simpl in H;
      try discriminate H
  end.

(** Every path of each of the eight handlers. *)
Ltac endpoint_runs :=
  all_runs;
  repeat match goal with
  | H : range_append_Dto _ _ _ _ = _ |- _ =>
      apply range_append_Dto_run in H; destruct H as [? ?]
  end.

(** ** The eight handlers and the registration *)

Section Handlers.

Context {T D Any Page Err S : Type}.
Variable BodyParser : Ctx -> Err + D.

Abbreviation Api := (Api T D Any Page Err S).
Abbreviation Event := (Event T D Any Page Err).
Abbreviation Response := (Response D Any Page).
Abbreviation Endpoint := (Endpoint T Any S).

(** X1. Every handler calls the validator at most once in a request, with
    the action tag of the handler and at most one item; the handlers that
    look no item up (list-all, paged list, search, create) pass no item. *)
Theorem validator_called_once :
  forall (api : Api) (e : Endpoint) (c : Ctx) (s s' : S)
         (res : Res Response) (tr : list Event),
    endpoint_handler BodyParser api e c s = (res, s', tr) ->
    (length (filter is_CallValidator tr) <= 1)%nat /\
    forall a items allowed,
      In (CallValidator a items allowed) tr ->
      a = endpoint_action e /\
      (length items <= 1)%nat /\
      (aggregate e = true -> items = []).
Proof.
  intros api e c s s' res tr Hrun.
  destruct e; simpl in Hrun; endpoint_runs.
  all: split;
    [ simpl;
      rewrite ?filter_app, ?(only_Dto_filter is_CallValidator)
        by (assumption || (intros [] ; simpl; congruence));
      simpl; lia
    | intros act items allowed Hin; in_run; simpl; auto;
      repeat split; auto; discriminate ].
Qed.

(** X2. A handler answers 401 exactly when a call of the validator
    returned false. *)
Theorem unauthorized_iff_denied :
  forall (api : Api) (e : Endpoint) (c : Ctx) (s s' : S)
         (res : Res Response) (tr : list Event),
    endpoint_handler BodyParser api e c s = (res, s', tr) ->
    (res = Ok (SendStatus StatusUnauthorized) <->
     exists a items, In (CallValidator a items false) tr).
Proof.
  intros api e c s s' res tr Hrun.
  destruct e; simpl in Hrun; endpoint_runs.
  all: split;
    [ intros Hres; try discriminate Hres; simpl; eauto 6
    | intros [act [items Hin]]; in_run; auto ].
  all: repeat match goal with
       | H : match ?x with _ => _ end |- _ => destruct x
       | H : exists _, _ |- _ => destruct H
       | H : _ /\ _ |- _ => destruct H
       | H : context [match ?l with [] => _ | _ :: _ => _ end] |- _ =>
           destruct l
       end; subst; try discriminate.
Qed.

(** X3. A denial ends the request: the denied call of the validator is the
    last event of the run, and the only call before it is the lookup of the
    item.  Nothing is fetched, created, changed, deleted or converted, and
    nothing is logged. *)
Theorem denied_stops :
  forall (api : Api) (e : Endpoint) (c : Ctx) (s s' : S)
         (res : Res Response) (tr : list Event)
         (a : Action) (items : list T),
    endpoint_handler BodyParser api e c s = (res, s', tr) ->
    In (CallValidator a items false) tr ->
    tr = [CallValidator a items false] \/
    exists item,
      items = [item] /\
      tr = [CallFind (Params c "id") item true;
            CallValidator a [item] false] \/
      items = [] /\
      tr = [CallFind (Params c "id") item false;
            CallValidator a [] false].
Proof.
  intros api e c s s' res tr a items Hrun Hin.
  destruct e; simpl in Hrun; endpoint_runs; in_run; eauto.
Qed.

(** X4. What a handler returns with: a status it sends with
    [c.SendStatus] is one of those of its own [return] statements and never
    200 (401 only for list-all and the paged list, 400 or 401 for search,
    401 or 404 for get-one and the sub-entity list, 400, 401 or 500 for
    create, 400, 401, 404 or 500 for update, 401, 404 or 500 for delete);
    [c.SendString] is returned by delete only, with the text [deleted]; and
    delete never returns [c.JSON]. *)
Theorem statuses_of_endpoint :
  forall (api : Api) (e : Endpoint) (c : Ctx) (s s' : S)
         (r : Response) (tr : list Event),
    endpoint_handler BodyParser api e c s = (Ok r, s', tr) ->
    match r with
    | SendStatus status =>
        In status (endpoint_statuses e) /\ status <> StatusOK
    | JSON _ => e <> EDeleteOne
    | SendString body => e = EDeleteOne /\ body = "deleted"
    end.
Proof.
  intros api e c s s' r tr Hrun.
  destruct e; simpl in Hrun; endpoint_runs; simpl.
  all: first [discriminate | split; [auto 8 | discriminate] | auto].
Qed.

(** X5. A handler writes a log line exactly when it returns
    [c.SendStatus(400)] or [c.SendStatus(500)]. *)
Theorem logged_iff_error :
  forall (api : Api) (e : Endpoint) (c : Ctx) (s s' : S)
         (res : Res Response) (tr : list Event),
    endpoint_handler BodyParser api e c s = (res, s', tr) ->
    ((exists line, In (Printf line) tr) <->
     res = Ok (SendStatus StatusBadRequest) \/
     res = Ok (SendStatus StatusInternalServerError)).
Proof.
  intros api e c s s' res tr Hrun.
  destruct e; simpl in Hrun; endpoint_runs.
  all: split;
    [ intros [line Hin]; in_run; auto
    | intros [Hres|Hres]; try discriminate Hres; eexists; simpl; eauto 6 ].
Qed.

(** X6. Each supplied function is called by its own handler only:
    [FindAll] by list-all, [FindAllPage] by the paged list, [Search] by
    search, [Create] by create, [Mutate] by update, [Delete] by delete, a
    sub-entity getter by a sub-entity list, [Find] by the handlers that
    address an item, and [Dto] never by the paged list, delete or a
    sub-entity list. *)
Theorem calls_of_endpoint :
  forall (api : Api) (e : Endpoint) (c : Ctx) (s s' : S)
         (res : Res Response) (tr : list Event) (ev : Event),
    endpoint_handler BodyParser api e c s = (res, s', tr) ->
    In ev tr -> caller_of ev e.
Proof.
  intros api e c s s' res tr ev Hrun Hin.
  destruct e; simpl in Hrun; endpoint_runs; in_run; simpl; eauto 8.
  all: destruct ev; simpl in *; try discriminate; auto 8.
Qed.

(** X7. A 200 response of list-all holds one transport value per entity
    [FindAll] returned, in the order [FindAll] returned them: the calls
    after [FindAll] are the calls of [Dto] on the entities in order, and the
    body is the list of what they returned. *)
Theorem list_all_in_order :
  forall (api : Api) (c : Ctx) (s s' : S) (r : Response) (tr : list Event),
    getAll api c s = (Ok r, s', tr) ->
    status_of r = StatusOK ->
    exists vs ds pre,
      r = JSON (JDtos ds) /\
      length ds = length vs /\
      tr = pre ++ CallFindAll vs
                  :: map (fun p => CallDto (fst p) (snd p)) (combine vs ds) /\
      (pre = [] \/ pre = [CallValidator ActionGetAll [] true]).
Proof.
  intros api c s s' r tr Hrun Hok.
  all_runs; simpl in Hok; try discriminate.
  all: match goal with
       | H : range_append_Dto _ _ _ _ = _ |- _ =>
           apply range_append_Dto_Ok in H; destruct H as [ds' [E1 [E2 E3]]]
       end; subst; simpl; rewrite app_nil_r.
  - exists l, ds', [CallValidator ActionGetAll [] true]; repeat split; auto.
  - exists l, ds', []; repeat split; auto.
Qed.

(** X8. A 200 response of search: [Search] is called with the decoded body
    as the filter, and the body of the response is what [Dto] returned for
    each entity found, in the order [Search] returned them. *)
Theorem search_in_order :
  forall (api : Api) (c : Ctx) (s s' : S) (r : Response) (tr : list Event),
    search BodyParser api c s = (Ok r, s', tr) ->
    status_of r = StatusOK ->
    exists filter vs ds pre,
      BodyParser c = inr filter /\
      r = JSON (JDtos ds) /\
      length ds = length vs /\
      tr = pre ++ CallSearch filter vs
                  :: map (fun p => CallDto (fst p) (snd p)) (combine vs ds) /\
      (pre = [] \/ pre = [CallValidator ActionGetAll [] true]).
Proof.
  intros api c s s' r tr Hrun Hok.
  all_runs; simpl in Hok; try discriminate.
  all: match goal with
       | H : range_append_Dto _ _ _ _ = _ |- _ =>
           apply range_append_Dto_Ok in H; destruct H as [ds' [E1 [E2 E3]]]
       end; subst; simpl; rewrite app_nil_r.
  - exists d, l, ds', [CallValidator ActionGetAll [] true];
      repeat split; auto.
  - exists d, l, ds', []; repeat split; auto.
Qed.

(** X9. When [FindAll] or [Search] returns no entity, the response is the
    JSON of the nil slice and [Dto] is not called, so that a nil [Dto] does
    no harm there. *)
Theorem nothing_found_needs_no_Dto :
  forall (api : Api) (e : Endpoint) (c : Ctx) (s s' : S)
         (res : Res Response) (tr : list Event),
    endpoint_handler BodyParser api e c s = (res, s', tr) ->
    (In (CallFindAll []) tr \/ exists filter, In (CallSearch filter []) tr) ->
    res = Ok (JSON (JDtos [])) /\
    forall v d, ~ In (CallDto v d) tr.
Proof.
  intros api e c s s' res tr Hrun Hin.
  destruct e; simpl in Hrun; all_runs.
  all: destruct Hin as [Hin|[filter Hin]]; in_run.
  all: repeat match goal with
       | H : range_append_Dto _ [] _ _ = _ |- _ =>
           simpl in H; inversion H; clear H; subst
       | H : range_append_Dto _ _ _ _ = _ |- _ =>
           apply range_append_Dto_run in H; destruct H as [? _]; in_run
       end.
  all: split; [reflexivity | unfold not; intros; in_run].
Qed.

(** X10. When [Create] returned no error: it was called with the decoded
    body, no item was looked up, and the response is the JSON of what [Dto]
    returned for the created item (a nil [Dto] panics). *)
Theorem created_item_converted :
  forall (api : Api) (c : Ctx) (s s' : S) (res : Res Response)
         (tr : list Event) (amended : D) (item : T),
    createOne BodyParser api c s = (res, s', tr) ->
    In (CallCreate amended item None) tr ->
    BodyParser c = inr amended /\
    (forall key it ok, ~ In (CallFind key it ok) tr) /\
    match Dto api with
    | None => res = Panic FDto
    | Some _ =>
        exists d, In (CallDto item d) tr /\ res = Ok (JSON (JDto d))
    end.
Proof.
  intros api c s s' res tr amended item Hrun Hin.
  all_runs; in_run.
  all: repeat split; auto; try (unfold not; intros; in_run; fail).
  all: eexists; simpl; eauto 6.
Qed.

(** X11. When [Mutate] returned no error: it was called with the item the
    lookup found and the decoded body, and the response is the JSON of what
    [Dto] returned for the item [Mutate] returned; [Dto] is called on that
    item only, not on the item found. *)
Theorem mutated_item_converted :
  forall (api : Api) (c : Ctx) (s s' : S) (res : Res Response)
         (tr : list Event) (amended : D) (item item1 : T),
    mutateOne BodyParser api c s = (res, s', tr) ->
    In (CallMutate item amended item1 None) tr ->
    BodyParser c = inr amended /\
    In (CallFind (Params c "id") item true) tr /\
    match Dto api with
    | None => res = Panic FDto
    | Some _ =>
        exists d,
          res = Ok (JSON (JDto d)) /\
          forall v d', In (CallDto v d') tr <-> v = item1 /\ d' = d
    end.
Proof.
  intros api c s s' res tr amended item item1 Hrun Hin.
  all_runs; in_run.
  all: repeat split; simpl; auto.
  all: eexists; split; [reflexivity|].
  all: intros v d'; split;
    [ intros Hd; in_run; auto
    | intros [E1 E2]; subst; simpl; auto 6 ].
Qed.


(** X17. When get-one called [Dto], it called it on the item the lookup
    found, after every call of the validator granted on that item, and the
    response is the JSON of what [Dto] returned. *)
Theorem found_item_converted :
  forall (api : Api) (c : Ctx) (s s' : S) (res : Res Response)
         (tr : list Event) (item : T) (d : D),
    getOne api c s = (res, s', tr) ->
    In (CallDto item d) tr ->
    res = Ok (JSON (JDto d)) /\
    In (CallFind (Params c "id") item true) tr /\
    forall a items allowed,
      In (CallValidator a items allowed) tr ->
      items = [item] /\ allowed = true.
Proof.
  intros api c s s' res tr item d Hrun Hin.
  all_runs; in_run.
  all: repeat split; simpl; auto; intros; in_run; auto.
Qed.

(** The routes of one registration, written out. *)
Lemma RegisterAPI_stack :
  forall (api : Router T D Any Page Err S) (genericApi : Api),
    fst (RegisterAPI BodyParser api genericApi) =
    api ++
    ([mkRoute ("/" ++ Path genericApi)%string GET "/" (getAll genericApi);
      mkRoute ("/" ++ Path genericApi)%string GET "/page/:id"
        (getAllPage genericApi)] ++
     (if isNil (Mutate genericApi) then []
      else [mkRoute ("/" ++ Path genericApi)%string POST "/"
              (createOne BodyParser genericApi)]) ++
     (if isNil (Search genericApi) then []
      else [mkRoute ("/" ++ Path genericApi)%string POST "/filter"
              (search BodyParser genericApi)])) ++
    map (fun se => mkRoute ("/" ++ Path genericApi)%string GET
                     ("/:id/" ++ SubPath se)%string
                     (getSubEntity genericApi (Get se)))
        (SubEntities genericApi) ++
    mkRoute ("/" ++ Path genericApi)%string GET "/:id" (getOne genericApi)
    :: (if isNil (Mutate genericApi) then []
        else [mkRoute ("/" ++ Path genericApi)%string PUT "/:id"
                (mutateOne BodyParser genericApi)]) ++
       (if isNil (Delete genericApi) then []
        else [mkRoute ("/" ++ Path genericApi)%string DELETE "/:id"
                (deleteOne genericApi)]).
Proof.
  intros api genericApi; unfold RegisterAPI, Group.
  destruct (Mutate genericApi); destruct (Search genericApi);
    destruct (Delete genericApi); simpl;
    rewrite range_SubEntities_stack; simpl;
    repeat (rewrite <- app_assoc; simpl); reflexivity.
Qed.

(** X13. In the router the sub-entity routes come in declaration order
    right before the get-one route, which is the only GET [/:id] route the
    registration adds; the path of a sub-entity route is never [/:id]. *)
Theorem sub_entities_before_get_one :
  forall (api : Router T D Any Page Err S) (genericApi : Api),
    exists before after,
      fst (RegisterAPI BodyParser api genericApi) =
        api ++ before ++
        map (fun se => mkRoute ("/" ++ Path genericApi)%string GET
                         ("/:id/" ++ SubPath se)%string
                         (getSubEntity genericApi (Get se)))
            (SubEntities genericApi) ++
        mkRoute ("/" ++ Path genericApi)%string GET "/:id"
          (getOne genericApi) :: after /\
      ~ In (GET, "/:id") (route_keys before) /\
      ~ In (GET, "/:id") (route_keys after) /\
      (forall se, In se (SubEntities genericApi) ->
                  ("/:id/" ++ SubPath se)%string <> "/:id").
Proof.
  intros api genericApi; rewrite RegisterAPI_stack.
  do 2 eexists; split; [reflexivity|].
  unfold route_keys.
  destruct (Mutate genericApi); destruct (Search genericApi);
    destruct (Delete genericApi); simpl.
  all: repeat split; try (intros se _; discriminate).
  all: unfold not; intros H; in_run; discriminate.
Qed.

(** X14. A registration appends to the router and leaves the routes
    before it in place: after two registrations the router holds the earlier
    routes, then the routes of the first descriptor, then those of the
    second, each under the group of its own path. *)
Theorem registrations_compose :
  forall (api : Router T D Any Page Err S) (first second : Api),
    fst (RegisterAPI BodyParser
           (fst (RegisterAPI BodyParser api first)) second) =
      api ++ fst (RegisterAPI BodyParser [] first)
          ++ fst (RegisterAPI BodyParser [] second) /\
    Forall (fun r => group r = ("/" ++ Path first)%string)
           (fst (RegisterAPI BodyParser [] first)) /\
    Forall (fun r => group r = ("/" ++ Path second)%string)
           (fst (RegisterAPI BodyParser [] second)).
Proof.
  assert (Hgroup : forall genericApi : Api,
             Forall (fun r => group r = ("/" ++ Path genericApi)%string)
                    (fst (RegisterAPI BodyParser [] genericApi))).
  { intros genericApi; rewrite RegisterAPI_stack; simpl.
    rewrite Forall_forall; intros r Hr.
    destruct (Mutate genericApi); destruct (Search genericApi);
      destruct (Delete genericApi); simpl in Hr.
    all: repeat match goal with
         | H : _ \/ _ |- _ => destruct H as [H|H]
         | H : In _ (_ ++ _) |- _ => apply in_app_or in H
         | H : In _ (map _ _) |- _ =>
             apply in_map_iff in H; destruct H as [? [H _]]
         | H : In _ (_ :: _) |- _ => destruct H as [H|H]
         | H : In _ [] |- _ => destruct H
         | H : False |- _ => destruct H
         end; subst; reflexivity. }
  assert (Happ : forall (r0 : Router T D Any Page Err S) (genericApi : Api),
             fst (RegisterAPI BodyParser r0 genericApi) =
             r0 ++ fst (RegisterAPI BodyParser [] genericApi)).
  { intros r0 genericApi.
    rewrite (RegisterAPI_stack r0), (RegisterAPI_stack []); reflexivity. }
  intros api first second; split; [|split; apply Hgroup].
  rewrite Happ, (Happ api first), <- app_assoc; reflexivity.
Qed.

(** Every handler returns a response when the functions it calls are set. *)
Lemma endpoint_returns :
  forall (api : Api) (e : Endpoint) (c : Ctx) (s s' : S)
         (res : Res Response) (tr : list Event),
    Find api <> None -> FindAll api <> None -> FindAllPage api <> None ->
    Dto api <> None ->
    match e with
    | ESearch => Search api <> None
    | ECreateOne => Create api <> None
    | EMutateOne => Mutate api <> None
    | EDeleteOne => Delete api <> None
    | EGetSubEntity getter => getter <> None
    | _ => True
    end ->
    endpoint_handler BodyParser api e c s = (res, s', tr) ->
    exists resp, res = Ok resp.
Proof.
  intros api e c s s' res tr HFind HFindAll HPage HDto He Hrun.
  destruct e; simpl in Hrun; endpoint_runs; eauto; try congruence.
  all: destruct (Dto api); try congruence.
  all: repeat match goal with
       | H : exists _, _ |- _ => destruct H
       | H : _ /\ _ |- _ => destruct H
       end; discriminate.
Qed.

(** X15. When [Find], [FindAll], [FindAllPage] and [Dto] are set, every
    declared sub-entity has its getter and [Create] is set whenever [Mutate]
    is, no registered handler panics: every request gets a response. *)
Theorem registered_handlers_return :
  forall (genericApi : Api) (r : Route T D Any Page Err S)
         (c : Ctx) (s : S),
    Find genericApi <> None ->
    FindAll genericApi <> None ->
    FindAllPage genericApi <> None ->
    Dto genericApi <> None ->
    (Mutate genericApi <> None -> Create genericApi <> None) ->
    (forall se, In se (SubEntities genericApi) -> Get se <> None) ->
    In r (fst (RegisterAPI BodyParser [] genericApi)) ->
    exists resp, fst (fst (handler r c s)) = Ok resp.
Proof.
  intros genericApi r c s HFind HFindAll HPage HDto HCreate HGet Hin.
  rewrite RegisterAPI_stack in Hin; simpl in Hin.
  assert (Hret : forall e,
             match e with
             | ESearch => Search genericApi <> None
             | ECreateOne => Create genericApi <> None
             | EMutateOne => Mutate genericApi <> None
             | EDeleteOne => Delete genericApi <> None
             | EGetSubEntity getter => getter <> None
             | _ => True
             end ->
             exists resp,
               fst (fst (endpoint_handler BodyParser genericApi e c s))
               = Ok resp).
  { intros e He.
    destruct (endpoint_handler BodyParser genericApi e c s)
      as [[res s'] tr] eqn:Hrun.
    apply (endpoint_returns genericApi e c s s' res tr); auto. }
  destruct (Mutate genericApi) as [mutate|] eqn:Emutate;
    destruct (Search genericApi) as [search1|] eqn:Esearch;
    destruct (Delete genericApi) as [delete|] eqn:Edelete; simpl in Hin.
  all: repeat match goal with
       | H : _ \/ _ |- _ => destruct H as [H|H]
       | H : In _ (_ ++ _) |- _ => apply in_app_or in H
       | H : In _ (map _ _) |- _ =>
           apply in_map_iff in H; destruct H as [se [H Hse]]
       | H : In _ (_ :: _) |- _ => destruct H as [H|H]
       | H : In _ [] |- _ => destruct H
       | H : False |- _ => destruct H
       end; subst r; simpl.
  all: try (apply (Hret EGetAll); exact I).
  all: try (apply (Hret EGetAllPage); exact I).
  all: try (apply (Hret EGetOne); exact I).
  all: try (apply (Hret ESearch); congruence).
  all: try (apply (Hret EDeleteOne); congruence).
  all: try (apply (Hret EMutateOne); congruence).
  all: try (apply (Hret ECreateOne); apply HCreate; congruence).
  all: apply (Hret (EGetSubEntity (Get se))); auto.
Qed.

Lemma digit_range :
  forall (c : ascii) (d : Z), strconv.digit c = Some d -> 0 <= d <= 9.
Proof.
  intros c d H; unfold strconv.digit in H.
  destruct ((48 <=? Z.of_nat (nat_of_ascii c))
            && (Z.of_nat (nat_of_ascii c) <=? 57)) eqn:E; [|discriminate].
  inversion H; subst; apply andb_true_iff in E; lia.
Qed.

Lemma decimal_value_nonneg :
  forall (s : string) (ds : list Z),
    digits_of s = Some ds -> 0 <= decimal_value ds.
Proof.
  intros s; induction s as [|c rest IH]; intros ds H; simpl in H.
  - inversion H; simpl; lia.
  - destruct (strconv.digit c) as [d|] eqn:Ed; [|discriminate].
    destruct (digits_of rest) as [ds'|]; [|discriminate].
    inversion H; subst; simpl.
    apply digit_range in Ed.
    assert (0 <= decimal_value ds') by auto.
    assert (0 < 10 ^ Z.of_nat (length ds')) by (apply Z.pow_pos_nonneg; lia).
    nia.
Qed.

(** The loop of [ParseUint] on decimal digits whose number fits int64. *)
Lemma ParseUint_loop_decimal :
  forall (s : string) (ds : list Z) (n : Z),
    digits_of s = Some ds ->
    0 <= n ->
    n * 10 ^ Z.of_nat (length ds) + decimal_value ds < 2 ^ 63 ->
    strconv.ParseUint_loop s n =
      (n * 10 ^ Z.of_nat (length ds) + decimal_value ds, None).
Proof.
  intros s; induction s as [|c rest IH]; intros ds n Hds Hn Hlt;
    simpl in Hds.
  - inversion Hds; subst; simpl; f_equal; lia.
  - destruct (strconv.digit c) as [d|] eqn:Ed; [|discriminate].
    destruct (digits_of rest) as [ds'|] eqn:Eds; [|discriminate].
    inversion Hds; subst; clear Hds.
    pose proof (digit_range _ _ Ed) as Hd.
    pose proof (decimal_value_nonneg _ _ Eds) as Hv.
    assert (Hp : 0 < 10 ^ Z.of_nat (length ds'))
      by (apply Z.pow_pos_nonneg; lia).
    cbn [length decimal_value] in *.
    rewrite Nat2Z.inj_succ, Z.pow_succ_r in * by lia.
    set (P := 10 ^ Z.of_nat (length ds')) in *.
    change (2 ^ 63) with 9223372036854775808 in Hlt.
    assert (Hsmall : n * 10 + d < 9223372036854775808) by nia.
    cbn [strconv.ParseUint_loop]; rewrite Ed.
    unfold strconv.maxUint64, strconv.uint64.
    change (2 ^ 64 - 1) with 18446744073709551615.
    change (2 ^ 64) with 18446744073709551616.
    change (18446744073709551615 / 10 + 1) with 1844674407370955162.
    destruct (1844674407370955162 <=? n) eqn:E1;
      [apply Z.leb_le in E1; lia|].
    rewrite (Z.mod_small (n * 10)) by lia.
    rewrite (Z.mod_small (n * 10 + d)) by lia.
    destruct (n * 10 + d <? n * 10) eqn:E2;
      [apply Z.ltb_lt in E2; lia|].
    destruct (18446744073709551615 <? n * 10 + d) eqn:E3;
      [apply Z.ltb_lt in E3; lia|].
    simpl orb; cbv iota.
    assert (Hnext : (n * 10 + d) * P + decimal_value ds'
                    < 9223372036854775808) by nia.
    rewrite (IH ds' (n * 10 + d) eq_refl); [|lia|exact Hnext].
    fold P; f_equal; ring.
Qed.

(** X16. A page token made of decimal digits whose number is below 2^63
    parses to that number without an error, and the paged list calls
    [FindAllPage] with no other number. *)
Theorem decimal_page_token :
  forall (api : Api) (c : Ctx) (s s' : S) (res : Res Response)
         (tr : list Event) (ds : list Z),
    getAllPage api c s = (res, s', tr) ->
    digits_of (Params c "id") = Some ds ->
    ds <> [] ->
    decimal_value ds < 2 ^ 63 ->
    strconv.ParseInt (Params c "id") = (decimal_value ds, None) /\
    forall ID page,
      In (CallFindAllPage ID page) tr -> ID = decimal_value ds.
Proof.
  intros api c s s' res tr ds Hrun Hds Hne Hlt.
  assert (Hparse : strconv.ParseInt (Params c "id")
                   = (decimal_value ds, None)).
  { pose proof (decimal_value_nonneg _ _ Hds) as Hv.
    pose proof (ParseUint_loop_decimal _ ds 0 Hds (Z.le_refl 0)) as Hloop.
    rewrite Z.mul_0_l, Z.add_0_l in Hloop; specialize (Hloop Hlt).
    destruct (Params c "id") as [|c0 rest] eqn:Eid;
      [simpl in Hds; inversion Hds; subst; congruence|].
    unfold strconv.ParseInt.
    assert (Hc0 : exists d, strconv.digit c0 = Some d).
    { simpl in Hds; destruct (strconv.digit c0); [eauto|discriminate]. }
    destruct Hc0 as [d0 Hd0].
    assert (Eplus : Ascii.eqb c0 "+" = false).
    { destruct (Ascii.eqb c0 "+") eqn:E; [|reflexivity].
      apply Ascii.eqb_eq in E; subst; discriminate Hd0. }
    assert (Eminus : Ascii.eqb c0 "-" = false).
    { destruct (Ascii.eqb c0 "-") eqn:E; [|reflexivity].
      apply Ascii.eqb_eq in E; subst; discriminate Hd0. }
    rewrite Eplus, Eminus.
    unfold strconv.ParseUint; rewrite Hloop.
    change (2 ^ 63) with 9223372036854775808 in *.
    unfold strconv.int64.
    change (2 ^ 63) with 9223372036854775808.
    destruct (9223372036854775808 <=? decimal_value ds) eqn:E1;
      [apply Z.leb_le in E1; lia|].
    reflexivity. }
  split; [exact Hparse|].
  intros ID page Hin.
  unfold getAllPage in Hrun; rewrite Hparse in Hrun.
  all_runs; in_run; reflexivity.
Qed.

End Handlers.

(** ** The handlers on the inventory *)

(** GET of item 7 under a validator that grants. *)
Lemma validator_called_once_witness :
  endpoint_handler parse (inventory (Some allow_all) None) EGetOne
    (request "7" "") store =
    ((Ok (JSON (JDto "anvil")), store,
      [CallFind "7" anvil true; CallValidator ActionGetOne [anvil] true;
       CallDto anvil "anvil"]) : DemoRun) /\
  (length (filter is_CallValidator
             ([CallFind "7" anvil true;
               CallValidator ActionGetOne [anvil] true;
               CallDto anvil "anvil"] : list DemoEvent)) <= 1)%nat /\
  forall a items allowed,
    In (CallValidator a items allowed : DemoEvent)
       [CallFind "7" anvil true; CallValidator ActionGetOne [anvil] true;
        CallDto anvil "anvil"] ->
    a = endpoint_action (EGetOne (T := Item) (Any := string) (S := Store)) /\
    (length items <= 1)%nat /\
    (aggregate (EGetOne (T := Item) (Any := string) (S := Store)) = true ->
     items = []).
Proof.
  split; [reflexivity|].
  apply (validator_called_once parse (inventory (Some allow_all) None)
           EGetOne (request "7" "") store store
           (Ok (JSON (JDto "anvil")))).
  reflexivity.
Defined.

(** A search under a validator that denies. *)
Lemma unauthorized_iff_denied_witness :
  endpoint_handler parse (inventory (Some deny_all) None) ESearch
    (request "" "rope") store =
    ((Ok (SendStatus StatusUnauthorized), store,
      [CallValidator ActionGetAll [] false]) : DemoRun) /\
  ((Ok (SendStatus StatusUnauthorized) : Res DemoResponse) =
   Ok (SendStatus StatusUnauthorized) <->
   exists a items,
     In (CallValidator a items false : DemoEvent)
        [CallValidator ActionGetAll [] false]).
Proof.
  split; [reflexivity|].
  apply (unauthorized_iff_denied parse (inventory (Some deny_all) None)
           ESearch (request "" "rope") store store).
  reflexivity.
Defined.

(** DELETE of item 42 under a validator that denies. *)
Lemma denied_stops_witness :
  endpoint_handler parse (inventory (Some deny_all) None) EDeleteOne
    (request "42" "") store =
    ((Ok (SendStatus StatusUnauthorized), store,
      [CallFind "42" rope true; CallValidator ActionDelete [rope] false])
     : DemoRun) /\
  In (CallValidator ActionDelete [rope] false : DemoEvent)
     [CallFind "42" rope true; CallValidator ActionDelete [rope] false] /\
  (([CallFind "42" rope true; CallValidator ActionDelete [rope] false]
    : list DemoEvent) = [CallValidator ActionDelete [rope] false] \/
   exists item,
     [rope] = [item] /\
     ([CallFind "42" rope true; CallValidator ActionDelete [rope] false]
      : list DemoEvent) =
     [CallFind (Params (request "42" "") "id") item true;
      CallValidator ActionDelete [item] false] \/
     [rope] = [] /\
     ([CallFind "42" rope true; CallValidator ActionDelete [rope] false]
      : list DemoEvent) =
     [CallFind (Params (request "42" "") "id") item false;
      CallValidator ActionDelete [] false]).
Proof.
  split; [reflexivity|]; split; [simpl; auto|].
  apply (denied_stops parse (inventory (Some deny_all) None) EDeleteOne
           (request "42" "") store store (Ok (SendStatus StatusUnauthorized)));
    [reflexivity | simpl; auto].
Defined.

(** PUT of a name the store refuses. *)
Lemma statuses_of_endpoint_witness :
  endpoint_handler parse (inventory None None) EMutateOne
    (request "42" "taken") store =
    ((Ok (SendStatus StatusInternalServerError), store,
      [CallFind "42" rope true;
       CallMutate rope "taken" rope (Some "name is taken");
       Printf (LogMutating rope "name is taken")]) : DemoRun) /\
  In StatusInternalServerError
     (endpoint_statuses (EMutateOne (T := Item) (Any := string) (S := Store)))
  /\ StatusInternalServerError <> StatusOK.
Proof.
  split; [reflexivity|].
  apply (statuses_of_endpoint parse (inventory None None) EMutateOne
           (request "42" "taken") store store
           (SendStatus StatusInternalServerError)
           [CallFind "42" rope true;
            CallMutate rope "taken" rope (Some "name is taken");
            Printf (LogMutating rope "name is taken")]).
  reflexivity.
Defined.

(** POST with an empty body. *)
Lemma logged_iff_error_witness :
  endpoint_handler parse (inventory None (Some insert)) ECreateOne
    (request "" "") store =
    ((Ok (SendStatus StatusBadRequest), store,
      [Printf (LogParsingBody "unexpected end of JSON input")]) : DemoRun) /\
  ((exists line,
       In (Printf line : DemoEvent)
          [Printf (LogParsingBody "unexpected end of JSON input")]) <->
   (Ok (SendStatus StatusBadRequest) : Res DemoResponse) =
   Ok (SendStatus StatusBadRequest) \/
   (Ok (SendStatus StatusBadRequest) : Res DemoResponse) =
   Ok (SendStatus StatusInternalServerError)).
Proof.
  split; [reflexivity|].
  apply (logged_iff_error parse (inventory None (Some insert)) ECreateOne
           (request "" "") store store).
  reflexivity.
Defined.

(** The letters of item 42. *)
Lemma calls_of_endpoint_witness :
  endpoint_handler parse (inventory None None) (EGetSubEntity (Some letters))
    (request "42" "") store =
    ((Ok (JSON (JAnys ["rope"; "42"])), store,
      [CallFind "42" rope true; CallGet rope ["rope"; "42"]]) : DemoRun) /\
  In (CallGet rope ["rope"; "42"] : DemoEvent)
     [CallFind "42" rope true; CallGet rope ["rope"; "42"]] /\
  caller_of (CallGet rope ["rope"; "42"] : DemoEvent)
    (EGetSubEntity (Some letters)).
Proof.
  split; [reflexivity|]; split; [simpl; auto|].
  apply (calls_of_endpoint parse (inventory None None)
           (EGetSubEntity (Some letters)) (request "42" "") store store
           (Ok (JSON (JAnys ["rope"; "42"])))
           [CallFind "42" rope true; CallGet rope ["rope"; "42"]]);
    [reflexivity | simpl; auto].
Defined.

(** The whole inventory. *)
Lemma list_all_in_order_witness :
  getAll (inventory None None) (request "" "") store =
    ((Ok (JSON (JDtos ["anvil"; "rope"])), store,
      [CallFindAll [anvil; rope]; CallDto anvil "anvil";
       CallDto rope "rope"]) : DemoRun) /\
  status_of (JSON (JDtos ["anvil"; "rope"]) : DemoResponse) = StatusOK /\
  exists vs ds pre,
    (JSON (JDtos ["anvil"; "rope"]) : DemoResponse) = JSON (JDtos ds) /\
    length ds = length vs /\
    ([CallFindAll [anvil; rope]; CallDto anvil "anvil"; CallDto rope "rope"]
     : list DemoEvent) =
    pre ++ CallFindAll vs
           :: map (fun p => CallDto (fst p) (snd p)) (combine vs ds) /\
    (pre = [] \/ pre = [CallValidator ActionGetAll [] true]).
Proof.
  split; [reflexivity|]; split; [reflexivity|].
  apply (list_all_in_order (inventory None None) (request "" "") store store);
    reflexivity.
Defined.

(** The search for the name rope. *)
Lemma search_in_order_witness :
  search parse (inventory None None) (request "" "rope") store =
    ((Ok (JSON (JDtos ["rope"])), store,
      [CallSearch "rope" [rope]; CallDto rope "rope"]) : DemoRun) /\
  status_of (JSON (JDtos ["rope"]) : DemoResponse) = StatusOK /\
  exists filter vs ds pre,
    parse (request "" "rope") = inr filter /\
    (JSON (JDtos ["rope"]) : DemoResponse) = JSON (JDtos ds) /\
    length ds = length vs /\
    ([CallSearch "rope" [rope]; CallDto rope "rope"] : list DemoEvent) =
    pre ++ CallSearch filter vs
           :: map (fun p => CallDto (fst p) (snd p)) (combine vs ds) /\
    (pre = [] \/ pre = [CallValidator ActionGetAll [] true]).
Proof.
  split; [reflexivity|]; split; [reflexivity|].
  apply (search_in_order parse (inventory None None) (request "" "rope")
           store store);
    reflexivity.
Defined.

(** The search for a name no item has. *)
Lemma nothing_found_needs_no_Dto_witness :
  endpoint_handler parse (inventory None None) ESearch
    (request "" "chisel") store =
    ((Ok (JSON (JDtos [])), store, [CallSearch "chisel" []]) : DemoRun) /\
  (In (CallFindAll [] : DemoEvent) [CallSearch "chisel" []] \/
   exists filter,
     In (CallSearch filter [] : DemoEvent) [CallSearch "chisel" []]) /\
  (Ok (JSON (JDtos [])) : Res DemoResponse) = Ok (JSON (JDtos [])) /\
  forall v d, ~ In (CallDto v d : DemoEvent) [CallSearch "chisel" []].
Proof.
  split; [reflexivity|].
  split; [right; exists "chisel"; simpl; auto|].
  apply (nothing_found_needs_no_Dto parse (inventory None None) ESearch
           (request "" "chisel") store store);
    [reflexivity | right; exists "chisel"; simpl; auto].
Defined.

(** POST of a cord. *)
Lemma created_item_converted_witness :
  createOne parse (inventory None (Some insert)) (request "" "cord") store =
    ((Ok (JSON (JDto "cord")), store ++ [mkItem "cord" "cord" 0],
      [CallCreate "cord" (mkItem "cord" "cord" 0) None;
       CallDto (mkItem "cord" "cord" 0) "cord"]) : DemoRun) /\
  In (CallCreate "cord" (mkItem "cord" "cord" 0) None : DemoEvent)
     [CallCreate "cord" (mkItem "cord" "cord" 0) None;
      CallDto (mkItem "cord" "cord" 0) "cord"] /\
  parse (request "" "cord") = inr "cord" /\
  (forall key it ok,
      ~ In (CallFind key it ok : DemoEvent)
          [CallCreate "cord" (mkItem "cord" "cord" 0) None;
           CallDto (mkItem "cord" "cord" 0) "cord"]) /\
  exists d,
    In (CallDto (mkItem "cord" "cord" 0) d : DemoEvent)
       [CallCreate "cord" (mkItem "cord" "cord" 0) None;
        CallDto (mkItem "cord" "cord" 0) "cord"] /\
    (Ok (JSON (JDto "cord")) : Res DemoResponse) = Ok (JSON (JDto d)).
Proof.
  split; [reflexivity|]; split; [simpl; auto|].
  apply (created_item_converted parse (inventory None (Some insert))
           (request "" "cord") store (store ++ [mkItem "cord" "cord" 0])
           (Ok (JSON (JDto "cord"))));
    [reflexivity | simpl; auto].
Defined.

(** PUT of the name cord on item 42. *)
Lemma mutated_item_converted_witness :
  mutateOne parse (inventory None None) (request "42" "cord") store =
    ((Ok (JSON (JDto "cord")), [anvil; mkItem "42" "cord" 15],
      [CallFind "42" rope true;
       CallMutate rope "cord" (mkItem "42" "cord" 15) None;
       CallDto (mkItem "42" "cord" 15) "cord"]) : DemoRun) /\
  In (CallMutate rope "cord" (mkItem "42" "cord" 15) None : DemoEvent)
     [CallFind "42" rope true;
      CallMutate rope "cord" (mkItem "42" "cord" 15) None;
      CallDto (mkItem "42" "cord" 15) "cord"] /\
  parse (request "42" "cord") = inr "cord" /\
  In (CallFind (Params (request "42" "cord") "id") rope true : DemoEvent)
     [CallFind "42" rope true;
      CallMutate rope "cord" (mkItem "42" "cord" 15) None;
      CallDto (mkItem "42" "cord" 15) "cord"] /\
  exists d,
    (Ok (JSON (JDto "cord")) : Res DemoResponse) = Ok (JSON (JDto d)) /\
    forall v d',
      In (CallDto v d' : DemoEvent)
         [CallFind "42" rope true;
          CallMutate rope "cord" (mkItem "42" "cord" 15) None;
          CallDto (mkItem "42" "cord" 15) "cord"] <->
      v = mkItem "42" "cord" 15 /\ d' = d.
Proof.
  split; [reflexivity|]; split; [simpl; auto|].
  apply (mutated_item_converted parse (inventory None None)
           (request "42" "cord") store [anvil; mkItem "42" "cord" 15]
           (Ok (JSON (JDto "cord"))));
    [reflexivity | simpl; auto].
Defined.


(** GET of item 7. *)
Lemma found_item_converted_witness :
  getOne (inventory (Some allow_all) None) (request "7" "") store =
    ((Ok (JSON (JDto "anvil")), store,
      [CallFind "7" anvil true; CallValidator ActionGetOne [anvil] true;
       CallDto anvil "anvil"]) : DemoRun) /\
  In (CallDto anvil "anvil" : DemoEvent)
     [CallFind "7" anvil true; CallValidator ActionGetOne [anvil] true;
      CallDto anvil "anvil"] /\
  (Ok (JSON (JDto "anvil")) : Res DemoResponse) = Ok (JSON (JDto "anvil")) /\
  In (CallFind (Params (request "7" "") "id") anvil true : DemoEvent)
     [CallFind "7" anvil true; CallValidator ActionGetOne [anvil] true;
      CallDto anvil "anvil"] /\
  forall a items allowed,
    In (CallValidator a items allowed : DemoEvent)
       [CallFind "7" anvil true; CallValidator ActionGetOne [anvil] true;
        CallDto anvil "anvil"] ->
    items = [anvil] /\ allowed = true.
Proof.
  split; [reflexivity|]; split; [simpl; auto|].
  apply (found_item_converted (inventory (Some allow_all) None)
           (request "7" "") store store);
    [reflexivity | simpl; auto].
Defined.

(** The get-one route of the full inventory, on a request for a missing
    item. *)
Lemma registered_handlers_return_witness :
  Find (inventory None (Some insert)) <> None /\
  FindAll (inventory None (Some insert)) <> None /\
  FindAllPage (inventory None (Some insert)) <> None /\
  Dto (inventory None (Some insert)) <> None /\
  (Mutate (inventory None (Some insert)) <> None ->
   Create (inventory None (Some insert)) <> None) /\
  (forall se, In se (SubEntities (inventory None (Some insert))) ->
              Get se <> None) /\
  In (mkRoute "/items" GET "/:id" (getOne (inventory None (Some insert))))
     (fst (RegisterAPI parse [] (inventory None (Some insert)))) /\
  exists resp : DemoResponse,
    fst (fst (handler
                (mkRoute "/items" GET "/:id"
                   (getOne (inventory None (Some insert))))
                (request "9" "") store)) = Ok resp.
Proof.
  assert (Hsub : forall se,
             In se (SubEntities (inventory None (Some insert))) ->
             Get se <> None).
  { intros se [Hse|[]]; subst; discriminate. }
  assert (Hin : In (mkRoute "/items" GET "/:id"
                      (getOne (inventory None (Some insert))))
                   (fst (RegisterAPI parse [] (inventory None (Some insert))))).
  { simpl; auto 10. }
  repeat (split; [first [discriminate | exact Hsub | exact Hin]|]).
  apply (registered_handlers_return parse (inventory None (Some insert))
           _ (request "9" "") store);
    first [discriminate | exact Hsub | exact Hin].
Defined.

(** The page token 12. *)
Lemma decimal_page_token_witness :
  getAllPage (inventory None None) (request "12" "") store =
    ((Ok (JSON (JPage [])), store, [CallFindAllPage 12 []]) : DemoRun) /\
  digits_of (Params (request "12" "") "id") = Some [1; 2] /\
  [1; 2] <> [] /\
  decimal_value [1; 2] < 2 ^ 63 /\
  strconv.ParseInt (Params (request "12" "") "id")
  = (decimal_value [1; 2], None) /\
  forall ID page,
    In (CallFindAllPage ID page : DemoEvent) [CallFindAllPage 12 []] ->
    ID = decimal_value [1; 2].
Proof.
  split; [reflexivity|]; split; [reflexivity|]; split; [discriminate|].
  split; [reflexivity|].
  apply (decimal_page_token (inventory None None) (request "12" "")
           store store (Ok (JSON (JPage []))));
    [reflexivity | reflexivity | discriminate | reflexivity].
Defined.
